(** * statsf1_scrape.py: a shallow embedding and its verification

    The script discovers race slugs on a season page, picks the freshest
    race by its [Last-Modified] header, harvests the tables of eight
    sub-pages and writes them into one workbook.  This file embeds the
    pure parts of [get_race_slugs_for_year], [pick_latest_race_slug],
    [scrape_tables], [safe_sheet_name] and the output-file naming of
    [main]; the network and the HTML/table parsers of the libraries are
    parameters (oracles). *)

From Stdlib Require Import ZArith Lia String Ascii.
From stdpp Require Import base list gmap sorting.

Open Scope Z_scope.

(* ------------------------------------------------------------------ *)
(** ** Python strings *)

(** A Python [str] is a sequence of Unicode code points. *)
Abbreviation pystr := (list Z).

(** ASCII literal of the source, as a Python string. *)
Definition py (s : string) : pystr :=
  map (fun a => Z.of_nat (nat_of_ascii a)) (list_ascii_of_string s).

(** [str.isspace] on one code point: bidirectional class WS, B or S, or
    general category Zs. *)
Definition py_isspace (c : Z) : bool :=
  ((9 <=? c) && (c <=? 13)) || ((28 <=? c) && (c <=? 32))
  || (c =? 133) || (c =? 160) || (c =? 5760)
  || ((8192 <=? c) && (c <=? 8202))
  || (c =? 8232) || (c =? 8233) || (c =? 8239) || (c =? 8287)
  || (c =? 12288).

Fixpoint lstrip_ws (s : pystr) : pystr :=
  match s with
  | c :: s' => if py_isspace c then lstrip_ws s' else s
  | [] => []
  end.

(** [s.strip()]: drop leading and trailing whitespace. *)
Definition py_strip (s : pystr) : pystr :=
  rev (lstrip_ws (rev (lstrip_ws s))).

(** [str(n)] for an [int]. *)
Fixpoint digits_of_nat (fuel : nat) (n : Z) (acc : pystr) : pystr :=
  match fuel with
  | O => acc
  | S fuel' =>
      let acc' := (48 + n mod 10) :: acc in
      if n <? 10 then acc' else digits_of_nat fuel' (n / 10) acc'
  end.

Definition py_str_int (n : Z) : pystr :=
  if n <? 0 then 45 :: digits_of_nat (S (Z.to_nat (- n))) (- n) []
  else digits_of_nat (S (Z.to_nat n)) n [].

(** Python compares strings lexicographically by code point. *)
Fixpoint str_ltb (a b : pystr) : bool :=
  match a, b with
  | [], [] => false
  | [], _ :: _ => true
  | _ :: _, [] => false
  | x :: a', y :: b' => (x <? y) || ((x =? y) && str_ltb a' b')
  end.

Definition str_lt (a b : pystr) : Prop := str_ltb a b = true.
Definition str_le (a b : pystr) : Prop := str_ltb b a = false.

#[global] Instance str_le_dec : RelDecision str_le.
Proof. intros a b. unfold str_le. apply _. Defined.

(** [sorted(xs)] on a list of strings. *)
Definition py_sorted (xs : list pystr) : list pystr := merge_sort str_le xs.

(** [s.startswith(p)] and the rest after it. *)
Fixpoint strip_prefix (p s : pystr) : option pystr :=
  match p, s with
  | [], _ => Some s
  | x :: p', y :: s' => if x =? y then strip_prefix p' s' else None
  | _ :: _, [] => None
  end.

Definition startswith (s p : pystr) : bool :=
  match strip_prefix p s with Some _ => true | None => false end.

(* ------------------------------------------------------------------ *)
(** ** Slug discovery: [get_race_slugs_for_year] *)

(** The character class [[a-z0-9\-]]. *)
Definition is_slug_char (c : Z) : bool :=
  ((97 <=? c) && (c <=? 122)) || ((48 <=? c) && (c <=? 57)) || (c =? 45).

(** The group [(?:/|\.aspx)] at the start of [s]. *)
Definition slug_terminator_at (s : pystr) : bool :=
  startswith s (py "/") || startswith s (py ".aspx").

(** [[a-z0-9\-]*(?:/|\.aspx)] matched at the start of [s] by the
    backtracking engine: the star is greedy, so one more character is
    tried before the terminator.  The result is the text consumed by
    the star. *)
Fixpoint slug_star (s : pystr) : option pystr :=
  match s with
  | [] => None
  | c :: s' =>
      match (if is_slug_char c then option_map (cons c) (slug_star s')
             else None) with
      | Some g => Some g
      | None => if slug_terminator_at s then Some [] else None
      end
  end.

(** [([a-z0-9\-]+)(?:/|\.aspx)]: group 1, when it matches. *)
Definition slug_plus (s : pystr) : option pystr :=
  match s with
  | c :: s' => if is_slug_char c then option_map (cons c) (slug_star s')
               else None
  | [] => None
  end.

(** The literal prefix [^/en/{year}/] of the pattern; [year] is an
    [int], rendered by the f-string. *)
Definition slug_prefix (year : Z) : pystr :=
  py "/en/" ++ py_str_int year ++ py "/".

(** [m = re.match(rf"^/en/{year}/([a-z0-9\-]+)(?:/|\.aspx)", href)];
    [Some (m.group(1))] or [None]. *)
Definition match_race_href (year : Z) (href : pystr) : option pystr :=
  match strip_prefix (slug_prefix year) href with
  | Some rest => slug_plus rest
  | None => None
  end.

(** The loop over [soup.select("a[href]")]: [hrefs] are the [href]
    attributes of the anchors, in document order (the HTML parsing and
    the GET of the anchor page are the libraries'). *)
Definition collect_slugs (year : Z) (hrefs : list pystr) : gset pystr :=
  foldl (fun slugs a =>
           match match_race_href year (py_strip a) with
           | Some g => {[ g ]} ∪ slugs
           | None => slugs
           end) ∅ hrefs.

Definition get_race_slugs_for_year (year : Z) (hrefs : list pystr)
  : list pystr :=
  py_sorted (elements (collect_slugs year hrefs)).

(** The pattern in the words of the spec: the prefix [/en/{year}/], a
    non-empty slug of lowercase letters, digits and hyphens, then a path
    separator or the [.aspx] suffix, then anything. *)
Definition race_href_pattern (year : Z) (href slug : pystr) : Prop :=
  ∃ term rest,
    href = slug_prefix year ++ slug ++ term ++ rest ∧
    slug ≠ [] ∧ Forall (λ c, is_slug_char c = true) slug ∧
    (term = py "/" ∨ term = py ".aspx").

(** [re.fullmatch(r"[a-z0-9\-]+", slug)] succeeds. *)
Definition slug_fullmatch (s : pystr) : bool :=
  match s with [] => false | _ :: _ => forallb is_slug_char s end.

(* ------------------------------------------------------------------ *)
(** ** Exceptions *)

Inductive py_exception :=
| RuntimeError (msg : pystr)
| LibraryError (what : pystr).   (** raised inside [requests], [pandas], ... *)

Inductive py_result (A : Type) :=
| Returns (a : A)
| Raises (e : py_exception).
Arguments Returns {A} a.
Arguments Raises {A} e.

(* ------------------------------------------------------------------ *)
(** ** [datetime] *)

(** A naive [datetime.datetime]; naive datetimes compare field by field. *)
Record datetime := mk_datetime {
  dt_year : Z; dt_month : Z; dt_day : Z;
  dt_hour : Z; dt_minute : Z; dt_second : Z; dt_microsecond : Z }.

Definition dt_fields (d : datetime) : list Z :=
  [dt_year d; dt_month d; dt_day d; dt_hour d; dt_minute d; dt_second d;
   dt_microsecond d].

(** [a > b] *)
Definition dt_gtb (a b : datetime) : bool := str_ltb (dt_fields b) (dt_fields a).

(** [dt.datetime.min] *)
Definition datetime_min : datetime := mk_datetime 1 1 1 0 0 0 0.

(* ------------------------------------------------------------------ *)
(** ** Configuration *)

Definition BASE : pystr := py "https://www.statsf1.com".
Definition YEAR : Z := 2025.

(* ------------------------------------------------------------------ *)
(** ** Freshness selection: [pick_latest_race_slug] *)

(** What [requests.head(url, headers=HEADERS, timeout=15,
    allow_redirects=True)] does: it raises (connection error, timeout,
    too many redirects, ...) or returns a response with a status code
    and the value of its [Last-Modified] header, if any. *)
Inductive head_response :=
| HeadRaises
| HeadResponse (status_code : Z) (last_modified : option pystr).

Section Pick.
(** The network, as seen by [requests.head] on a URL. *)
Variable head : pystr → head_response.
(** [dt.datetime.strptime(lm, "%a, %d %b %Y %H:%M:%S %Z")]; [None]
    when it raises [ValueError]. *)
Variable strptime_lm : pystr → option datetime.

(** [url = f"{BASE}/en/{YEAR}/{slug}/classement.aspx"] *)
Definition race_url (slug : pystr) : pystr :=
  BASE ++ py "/en/" ++ py_str_int YEAR ++ py "/" ++ slug
       ++ py "/classement.aspx".

(** The [try] block of the loop body: [Some t] when the iteration
    reaches the comparison [t > best_dt] with [t], [None] when it
    [continue]s (an exception caught by [except Exception], or the
    status check). *)
Definition probe (slug : pystr) : option datetime :=
  match head (race_url slug) with
  | HeadRaises => None
  | HeadResponse status lm =>
      if 400 <=? status then None
      else match lm with
           | Some ((_ :: _) as s) => strptime_lm s   (* if lm: *)
           | _ => Some datetime_min
           end
  end.

(** The [for slug in slugs] loop, threading [best] and [best_dt]. *)
Fixpoint pick_loop (slugs : list pystr) (best : option pystr)
    (best_dt : option datetime) : option pystr * option datetime :=
  match slugs with
  | [] => (best, best_dt)
  | slug :: rest =>
      if negb (slug_fullmatch slug) then pick_loop rest best best_dt
      else match probe slug with
           | None => pick_loop rest best best_dt
           | Some t =>
               match best_dt with
               | None => pick_loop rest (Some slug) (Some t)
               | Some b =>
                   if dt_gtb t b then pick_loop rest (Some slug) (Some t)
                   else pick_loop rest best best_dt
               end
           end
  end.

Definition pick_latest_race_slug (slugs : list pystr) : py_result pystr :=
  match fst (pick_loop slugs None None) with
  | Some ((_ :: _) as best) => Returns best
  | _ => Raises (RuntimeError
           (py "Could not determine latest race slug for this year."))
  end.

(** The timestamp one candidate contributes to the comparison, if it
    gets that far: it passes the re-validation and its probe succeeds. *)
Definition candidate_time (slug : pystr) : option datetime :=
  if slug_fullmatch slug then probe slug else None.
End Pick.

(** A model of [strptime] with the format
    ["%a, %d %b %Y %H:%M:%S %Z"] on its fixed-width inputs
    (["Tue, 03 Dec 2025 10:00:00 GMT"]): two-digit day, hour, minute and
    second, four ASCII digits of year, capitalised English names, single
    spaces, zone [GMT] or [UTC].  On these inputs it returns what Python
    returns: the weekday is not checked against the date, the date must
    exist (year 0 and 31 Feb raise [ValueError]), seconds 60 and 61 pass
    the pattern but [datetime] rejects them.  Other inputs, some of which
    Python accepts, give [None]. *)
Definition weekday_abbrs : list pystr :=
  map py ["Mon"; "Tue"; "Wed"; "Thu"; "Fri"; "Sat"; "Sun"]%string.
Definition month_abbrs : list pystr :=
  map py ["Jan"; "Feb"; "Mar"; "Apr"; "May"; "Jun"; "Jul"; "Aug"; "Sep";
          "Oct"; "Nov"; "Dec"]%string.

Fixpoint index_of (x : pystr) (xs : list pystr) (i : Z) : option Z :=
  match xs with
  | [] => None
  | y :: xs' => if bool_decide (x = y) then Some i else index_of x xs' (i + 1)
  end.

Definition digit_val (c : Z) : option Z :=
  if (48 <=? c) && (c <=? 57) then Some (c - 48) else None.

Definition digits_val (cs : list Z) : option Z :=
  foldl (λ acc c, match acc, digit_val c with
                  | Some n, Some d => Some (10 * n + d)
                  | _, _ => None
                  end) (Some 0) cs.

Definition is_leap (y : Z) : bool :=
  (y mod 4 =? 0) && (negb (y mod 100 =? 0) || (y mod 400 =? 0)).

Definition days_in_month (y m : Z) : Z :=
  if m =? 2 then (if is_leap y then 29 else 28)
  else if (m =? 4) || (m =? 6) || (m =? 9) || (m =? 11) then 30 else 31.

Definition strptime_imf_fixdate (s : pystr) : option datetime :=
  match s with
  | [w1; w2; w3; 44; 32; d1; d2; 32; m1; m2; m3; 32; y1; y2; y3; y4; 32;
     h1; h2; 58; n1; n2; 58; s1; s2; 32; z1; z2; z3] =>
      match index_of [w1; w2; w3] weekday_abbrs 0,
            index_of [m1; m2; m3] month_abbrs 1,
            digits_val [d1; d2], digits_val [y1; y2; y3; y4],
            digits_val [h1; h2], digits_val [n1; n2], digits_val [s1; s2] with
      | Some _, Some mo, Some d, Some y, Some h, Some mi, Some se =>
          if bool_decide ([z1; z2; z3] = py "GMT" ∨ [z1; z2; z3] = py "UTC")
             && (1 <=? y) && (1 <=? d) && (d <=? days_in_month y mo)
             && (h <=? 23) && (mi <=? 59) && (se <=? 59)
          then Some (mk_datetime y mo d h mi se 0)
          else None
      | _, _, _, _, _, _, _ => None
      end
  | _ => None
  end.

(* ------------------------------------------------------------------ *)
(** ** Table harvesting: [scrape_tables] *)

(** A column or index label: a string, or another object (a number, a
    tuple of a multi-row header, ...). *)
Inductive label (O : Type) :=
| LStr (s : pystr)
| LObj (o : O).
Arguments LStr {O} s.
Arguments LObj {O} o.

(** A [pandas.DataFrame]: column labels, row index, row data. *)
Record DataFrame (O C : Type) := mk_df {
  df_columns : list (label O);
  df_index : list (label O);
  df_values : list (list C) }.
Arguments mk_df {O C} _ _ _.
Arguments df_columns {O C} _.
Arguments df_index {O C} _.
Arguments df_values {O C} _.

Section Harvest.
Context {O C : Type}.
(** [str(o)] on the other objects. *)
Variable obj_str : O → pystr.
(** [pd.read_html(url)]: the tables of the page in document order, or
    the exception of the fetch or the parse. *)
Variable read_html : pystr → py_result (list (DataFrame O C)).

Definition label_str (c : label O) : pystr :=
  match c with LStr s => s | LObj o => obj_str o end.

(** [df.columns = [str(c).strip() for c in df.columns]] *)
Definition set_columns (df : DataFrame O C) : DataFrame O C :=
  mk_df (map (λ c, LStr (py_strip (label_str c))) (df_columns df))
        (df_index df) (df_values df).

Definition scrape_tables (url : pystr) : py_result (list (DataFrame O C)) :=
  match read_html url with
  | Raises e => Raises e
  | Returns dfs =>
      Returns (foldl (λ out df, out ++ [set_columns df]) [] dfs)
  end.
End Harvest.

(* ------------------------------------------------------------------ *)
(** ** Workbook naming: [safe_sheet_name] and the output file of [main] *)

(** The class [[:\\/?*\[\]]]. *)
Definition is_bad_sheet_char (c : Z) : bool :=
  (c =? 58) || (c =? 92) || (c =? 47) || (c =? 63) || (c =? 42)
  || (c =? 91) || (c =? 93).

(** [re.sub(bad, "-", name)] then [name[:31]]. *)
Definition safe_sheet_name (name : pystr) : pystr :=
  let name := map (λ c, if is_bad_sheet_char c then 45 else c) name in
  take 31 name.

(** [%m], [%d], [%H], [%M]: two digits, zero-padded. *)
Definition pad2 (n : Z) : pystr := [48 + n / 10; 48 + n mod 10].

(** [now.strftime("%Y%m%d_%H%M")]; [%Y] is [str] of the year (glibc
    pads nothing). *)
Definition strftime_stamp (now : datetime) : pystr :=
  py_str_int (dt_year now) ++ pad2 (dt_month now) ++ pad2 (dt_day now)
  ++ py "_" ++ pad2 (dt_hour now) ++ pad2 (dt_minute now).

(** [out_file = Path(f"statsf1_{YEAR}_{latest_slug}_{timestamp}.xlsx")] *)
Definition out_file_name (latest_slug : pystr) (now : datetime) : pystr :=
  let timestamp := strftime_stamp now in
  py "statsf1_" ++ py_str_int YEAR ++ py "_" ++ latest_slug ++ py "_"
  ++ timestamp ++ py ".xlsx".

(** Whether a candidate reaches the comparison [t > best_dt]. *)
Definition reaches_comparison (head : pystr → head_response)
    (strptime_lm : pystr → option datetime) (slug : pystr) : bool :=
  match candidate_time head strptime_lm slug with Some _ => true | None => false end.

(* ------------------------------------------------------------------ *)
(** ** The fetch of [get_race_slugs_for_year] *)

(** What [requests.get(anchor, headers=HEADERS, timeout=20)] does: it
    raises, or returns a response with a status code and a body, seen
    through [soup.select("a[href]")] as the list of its [href] values. *)
Inductive get_response :=
| GetRaises
| GetResponse (status_code : Z) (hrefs : list pystr).

(** [resp.raise_for_status()]: [HTTPError] for a status in [400, 600). *)
Definition raise_for_status (status_code : Z) : option py_exception :=
  if (400 <=? status_code) && (status_code <? 600)
  then Some (LibraryError (py "HTTPError")) else None.

(** [anchor = f"{BASE}/en/{year}/abou-dhabi/classement.aspx"] *)
Definition anchor_url (year : Z) : pystr :=
  BASE ++ py "/en/" ++ py_str_int year ++ py "/abou-dhabi/classement.aspx".

(** The whole of [get_race_slugs_for_year]: the GET, the status check,
    then the pure part [get_race_slugs_for_year]. *)
Definition get_race_slugs_for_year_io (get : pystr → get_response) (year : Z)
  : py_result (list pystr) :=
  match get (anchor_url year) with
  | GetRaises => Raises (LibraryError (py "RequestException"))
  | GetResponse status hrefs =>
      match raise_for_status status with
      | Some e => Raises e
      | None => Returns (get_race_slugs_for_year year hrefs)
      end
  end.

(* ------------------------------------------------------------------ *)
(** ** [main] *)

Definition PAGES : list pystr :=
  map py ["engages.aspx"; "qualification.aspx"; "grille.aspx";
          "classement.aspx"; "en-tete.aspx"; "meilleur-tour.aspx";
          "tour-par-tour.aspx"; "championnat.aspx"]%string.

(** [s.replace(old, new)] for a non-empty [old]: non-overlapping
    occurrences, left to right; [fuel] is [len(s)], and each step
    consumes at least one character. *)
Fixpoint replace_fuel (fuel : nat) (old new s : pystr) : pystr :=
  match fuel with
  | O => s
  | S fuel' =>
      match s with
      | [] => []
      | c :: s' =>
          match strip_prefix old s with
          | Some rest => new ++ replace_fuel fuel' old new rest
          | None => c :: replace_fuel fuel' old new s'
          end
      end
  end.

Definition py_replace (s old new : pystr) : pystr :=
  replace_fuel (length s) old new s.

(** [f"{latest_slug}_{page.replace('.aspx','')}_{i}"], sanitised. *)
Definition table_sheet_name (latest_slug page : pystr) (i : Z) : pystr :=
  safe_sheet_name (latest_slug ++ py "_" ++ py_replace page (py ".aspx") []
                   ++ py "_" ++ py_str_int i).

(** [url = f"{BASE}/en/{YEAR}/{latest_slug}/{page}"] *)
Definition page_url (latest_slug page : pystr) : pystr :=
  BASE ++ py "/en/" ++ py_str_int YEAR ++ py "/" ++ latest_slug ++ py "/" ++ page.

(** The content of one [to_excel] call. *)
Inductive sheet (O C : Type) :=
| RunLogSheet (run_timestamp : pystr) (year : Z) (race_slug : pystr)
| TableSheet (df : DataFrame O C).
Arguments RunLogSheet {O C} _ _ _.
Arguments TableSheet {O C} _.

(** The workbook as the sequence of its [to_excel(writer, sheet_name=...)]
    calls, in order, and what [main] ends with.  The [with] block closes
    (and saves) the writer also when an exception leaves it. *)
Record run_outcome (O C : Type) := mk_outcome {
  workbook : option (pystr * list (pystr * sheet O C));
  result : py_result unit }.
Arguments mk_outcome {O C} _ _.
Arguments workbook {O C} _.
Arguments result {O C} _.

Section Main.
Context {O C : Type}.
Variable get : pystr → get_response.
Variable head : pystr → head_response.
Variable strptime_lm : pystr → option datetime.
Variable obj_str : O → pystr.
Variable read_html : pystr → py_result (list (DataFrame O C)).
(** [dt.datetime.now()] *)
Variable now : datetime.

(** [for i, df in enumerate(dfs, start=1): df.to_excel(...)] *)
Definition table_sheets (latest_slug page : pystr) (dfs : list (DataFrame O C))
  : list (pystr * sheet O C) :=
  imap (λ k df, (table_sheet_name latest_slug page (Z.of_nat k + 1), TableSheet df))
       dfs.

(** [for page in PAGES: ...]: the sheets written so far, and the
    exception that left the loop, if any. *)
Fixpoint harvest (latest_slug : pystr) (pages : list pystr)
    (written : list (pystr * sheet O C))
  : list (pystr * sheet O C) * option py_exception :=
  match pages with
  | [] => (written, None)
  | page :: rest =>
      match scrape_tables obj_str read_html (page_url latest_slug page) with
      | Raises e => (written, Some e)
      | Returns dfs => harvest latest_slug rest (written ++ table_sheets latest_slug page dfs)
      end
  end.

Definition main : run_outcome O C :=
  match get_race_slugs_for_year_io get YEAR with
  | Raises e => mk_outcome None (Raises e)
  | Returns slugs =>
      match slugs with
      | [] => mk_outcome None (Raises (RuntimeError
                (py "No race slugs found. The season page structure may have changed.")))
      | _ :: _ =>
          match pick_latest_race_slug head strptime_lm slugs with
          | Raises e => mk_outcome None (Raises e)
          | Returns latest_slug =>
              let timestamp := strftime_stamp now in
              let out_file := out_file_name latest_slug now in
              let runlog := (py "RunLog", RunLogSheet timestamp YEAR latest_slug) in
              let '(written, err) := harvest latest_slug PAGES [runlog] in
              mk_outcome (Some (out_file, written))
                (match err with None => Returns tt | Some e => Raises e end)
          end
      end
  end.
End Main.

(** A [datetime] as [datetime.now()] returns it in our era. *)
Definition run_time_ok (d : datetime) : Prop :=
  1000 ≤ dt_year d ≤ 9999 ∧ 1 ≤ dt_month d ≤ 12 ∧ 1 ≤ dt_day d ≤ 31 ∧
  0 ≤ dt_hour d ≤ 23 ∧ 0 ≤ dt_minute d ≤ 59.

(* ------------------------------------------------------------------ *)
(** ** Concrete runs *)

(** The spec's scenario: [abou-dhabi] answers 200 with a [Last-Modified]
    header, every other page 404. *)
Definition scenario_head (url : pystr) : head_response :=
  if bool_decide (url = race_url (py "abou-dhabi"))
  then HeadResponse 200 (Some (py "Tue, 03 Dec 2025 10:00:00 GMT"))
  else HeadResponse 404 None.

(** Every page answers 200 with the same [Last-Modified]. *)
Definition same_date_head (url : pystr) : head_response :=
  HeadResponse 200 (Some (py "Tue, 03 Dec 2025 10:00:00 GMT")).

(** [australie] answers 200 without [Last-Modified]; every other page
    answers 200 with the date of [datetime.min]. *)
Definition epoch_header_head (url : pystr) : head_response :=
  if bool_decide (url = race_url (py "australie"))
  then HeadResponse 200 None
  else HeadResponse 200 (Some (py "Mon, 01 Jan 0001 00:00:00 GMT")).

(** [abou-dhabi] answers 200 with a December 2025 [Last-Modified],
    [australie] answers 200 without the header, [bahrein] answers 200
    with the date of [datetime.min]; every other page answers 404. *)
Definition mixed_head (url : pystr) : head_response :=
  if bool_decide (url = race_url (py "abou-dhabi"))
  then HeadResponse 200 (Some (py "Tue, 03 Dec 2025 10:00:00 GMT"))
  else if bool_decide (url = race_url (py "australie"))
  then HeadResponse 200 None
  else if bool_decide (url = race_url (py "bahrein"))
  then HeadResponse 200 (Some (py "Mon, 01 Jan 0001 00:00:00 GMT"))
  else HeadResponse 404 None.

(** The season page lists [abou-dhabi] twice and [bahrein] once, next to
    links that are not race links. *)
Definition demo_get (url : pystr) : get_response :=
  if bool_decide (url = anchor_url YEAR)
  then GetResponse 200 [py "/en/2025/abou-dhabi/classement.aspx";
                        py " /en/2025/bahrein.aspx ";
                        py "/en/2025/abou-dhabi.aspx";
                        py "/fr/2025/monaco/grille.aspx"; py "/en/2025/"]
  else GetResponse 404 [].

(** A season page without any race link. *)
Definition demo_get_no_races (url : pystr) : get_response :=
  GetResponse 200 [py "/en/2024/abou-dhabi/classement.aspx"; py "/en/2025/Monaco.aspx"].

(** A one-cell table. *)
Definition demo_df : DataFrame unit unit :=
  mk_df [LStr (py " Pos ")] [LObj tt] [[tt]].

(** Every results page holds one table. *)
Definition demo_read_html (url : pystr) : py_result (list (DataFrame unit unit)) :=
  Returns [demo_df].

(** The grid page of [abou-dhabi] cannot be fetched. *)
Definition demo_read_html_grid_fails (url : pystr)
  : py_result (list (DataFrame unit unit)) :=
  if bool_decide (url = page_url (py "abou-dhabi") (py "grille.aspx"))
  then Raises (LibraryError (py "HTTPError")) else Returns [demo_df].

(** The clock of the demo runs. *)
Definition demo_now : datetime := mk_datetime 2025 12 8 9 30 0 0.

(** What the run with the failing grid page saves: the [RunLog] sheet
    and the tables of the two pages before the grid. *)
(** What the run with every page readable saves. *)
Definition demo_full_workbook : list (pystr * sheet unit unit) :=
  (py "RunLog", RunLogSheet (strftime_stamp demo_now) YEAR (py "abou-dhabi"))
  :: concat (map (λ page, table_sheets (py "abou-dhabi") page
                            [set_columns (λ _, py "") demo_df]) PAGES).

Definition demo_partial_workbook : list (pystr * sheet unit unit) :=
  (py "RunLog", RunLogSheet (strftime_stamp demo_now) YEAR (py "abou-dhabi"))
  :: table_sheets (py "abou-dhabi") (py "engages.aspx") [set_columns (λ _, py "") demo_df]
  ++ table_sheets (py "abou-dhabi") (py "qualification.aspx") [set_columns (λ _, py "") demo_df].

(* ================================================================== *)
(** * Lemmas *)

(** ** Code-point order on strings *)

Lemma str_ltb_irrefl a : str_ltb a a = false.
Proof. induction a as [|x a IH]; simpl; [done|]. rewrite IH. lia. Qed.

Lemma str_ltb_trans a b c :
  str_ltb a b = true → str_ltb b c = true → str_ltb a c = true.
Proof.
  revert b c. induction a as [|x a IH]; intros [|y b] [|z c]; simpl; try done.
  intros H1 H2.
  apply orb_true_iff in H1 as [H1|H1]; apply orb_true_iff in H2 as [H2|H2];
    apply orb_true_iff.
  - left. lia.
  - apply andb_true_iff in H2 as [H2 _]. left. lia.
  - apply andb_true_iff in H1 as [H1 _]. left. lia.
  - apply andb_true_iff in H1 as [H1 H1']; apply andb_true_iff in H2 as [H2 H2'].
    right. apply andb_true_iff. split; [lia|]. eauto.
Qed.

Lemma str_ltb_trichotomy a b :
  a = b ∨ str_ltb a b = true ∨ str_ltb b a = true.
Proof.
  revert b. induction a as [|x a IH]; intros [|y b]; simpl; auto.
  destruct (Z.lt_trichotomy x y) as [Hl|[->|Hl]].
  - right; left. apply orb_true_iff. left. lia.
  - destruct (IH b) as [->|[H|H]]; [by left| |].
    + right; left. rewrite H, Z.eqb_refl. apply orb_true_r.
    + right; right. rewrite H, Z.eqb_refl. apply orb_true_r.
  - right; right. apply orb_true_iff. left. lia.
Qed.

Lemma str_ltb_asym a b : str_ltb a b = true → str_ltb b a = false.
Proof.
  intros H. destruct (str_ltb b a) eqn:E; [|done].
  pose proof (str_ltb_trans _ _ _ H E) as H'. by rewrite str_ltb_irrefl in H'.
Qed.

#[global] Instance str_le_total : Total str_le.
Proof.
  intros a b. unfold str_le.
  destruct (str_ltb b a) eqn:E; [|by left]. right. by apply str_ltb_asym.
Qed.

#[global] Instance str_le_trans : Transitive str_le.
Proof.
  intros a b c H1 H2. unfold str_le in *.
  destruct (str_ltb c a) eqn:E; [|done].
  destruct (str_ltb_trichotomy a b) as [->|[H|H]].
  - by rewrite E in H2.
  - by rewrite (str_ltb_trans _ _ _ E H) in H2.
  - by rewrite H in H1.
Qed.

Lemma StronglySorted_le_lt (l : list pystr) :
  StronglySorted str_le l → NoDup l → StronglySorted str_lt l.
Proof.
  induction l as [|x l IH]; intros Hs Hnd; [constructor|].
  apply StronglySorted_inv in Hs as [Hs Hf].
  apply NoDup_cons in Hnd as [Hx Hnd].
  constructor; [by apply IH|].
  apply Forall_forall. intros y Hy. rewrite Forall_forall in Hf.
  pose proof (Hf y Hy) as Hle. unfold str_le, str_lt in *.
  destruct (str_ltb_trichotomy x y) as [->|[H|H]]; [|done|].
  - by destruct Hx.
  - by rewrite H in Hle.
Qed.

Lemma py_sorted_spec (xs : list pystr) :
  NoDup xs →
  (∀ x, x ∈ py_sorted xs ↔ x ∈ xs) ∧ StronglySorted str_lt (py_sorted xs).
Proof.
  intros Hnd. unfold py_sorted. split.
  - intros x. by rewrite (merge_sort_Permutation str_le xs).
  - apply StronglySorted_le_lt.
    + apply (StronglySorted_merge_sort str_le).
    + by rewrite (merge_sort_Permutation str_le xs).
Qed.

(** ** The slug pattern *)

Lemma strip_prefix_Some p s r : strip_prefix p s = Some r ↔ s = p ++ r.
Proof.
  revert s. induction p as [|x p IH]; intros [|y s]; simpl.
  - split; congruence.
  - split; congruence.
  - split; [done|]. discriminate.
  - destruct (Z.eqb_spec x y) as [->|Hne].
    + rewrite IH. split; [by intros ->|]. by intros [= ->].
    + split; [done|]. by intros [= -> _].
Qed.

Lemma startswith_true s p : startswith s p = true ↔ ∃ r, s = p ++ r.
Proof.
  unfold startswith. destruct (strip_prefix p s) as [r|] eqn:E.
  - apply strip_prefix_Some in E. split; eauto.
  - split; [done|]. intros [r Hr]. apply strip_prefix_Some in Hr. congruence.
Qed.

Lemma slug_terminator_at_true s :
  slug_terminator_at s = true ↔
  ∃ term rest, s = term ++ rest ∧ (term = py "/" ∨ term = py ".aspx").
Proof.
  unfold slug_terminator_at. rewrite orb_true_iff, !startswith_true.
  split.
  - intros [[r Hr]|[r Hr]]; eauto.
  - intros (t & r & -> & [->| ->]); eauto.
Qed.

Lemma slug_star_sound s g :
  slug_star s = Some g →
  ∃ term rest, s = g ++ term ++ rest ∧
    Forall (λ c, is_slug_char c = true) g ∧
    (term = py "/" ∨ term = py ".aspx").
Proof.
  revert g. induction s as [|c s IH]; intros g H; simpl in H; [done|].
  destruct (is_slug_char c) eqn:Ec.
  - destruct (slug_star s) as [g'|] eqn:E; simpl in H.
    + injection H as <-. destruct (IH g' eq_refl) as (t & r & -> & Hf & Ht).
      exists t, r. split; [done|]. split; [by constructor|done].
    + destruct (slug_terminator_at (c :: s)) eqn:Et; [|done].
      injection H as <-. apply slug_terminator_at_true in Et as (t & r & Hs & Ht).
      exists t, r. split; [done|]. split; [constructor|done].
  - destruct (slug_terminator_at (c :: s)) eqn:Et; [|done].
    injection H as <-. apply slug_terminator_at_true in Et as (t & r & Hs & Ht).
    exists t, r. split; [done|]. split; [constructor|done].
Qed.

Lemma slug_star_complete g term rest :
  Forall (λ c, is_slug_char c = true) g →
  (term = py "/" ∨ term = py ".aspx") →
  slug_star (g ++ term ++ rest) = Some g.
Proof.
  intros Hg Ht. induction Hg as [|c g Hc Hg IH].
  - destruct Ht as [->| ->]; reflexivity.
  - simpl. rewrite Hc, IH. reflexivity.
Qed.

Lemma slug_plus_spec s x :
  slug_plus s = Some x ↔
  ∃ term rest, s = x ++ term ++ rest ∧ x ≠ [] ∧
    Forall (λ c, is_slug_char c = true) x ∧
    (term = py "/" ∨ term = py ".aspx").
Proof.
  split.
  - destruct s as [|c s]; simpl; [done|].
    destruct (is_slug_char c) eqn:Ec; [|done].
    destruct (slug_star s) as [g|] eqn:E; simpl; [|done].
    intros [= <-]. destruct (slug_star_sound _ _ E) as (t & r & -> & Hf & Ht).
    exists t, r. repeat split; [done|by constructor|done].
  - intros (t & r & -> & Hne & Hf & Ht).
    destruct x as [|c x]; [done|]. apply Forall_cons in Hf as [Hc Hf].
    simpl. rewrite Hc, (slug_star_complete _ _ _ Hf Ht). reflexivity.
Qed.

Lemma match_race_href_spec year href x :
  match_race_href year href = Some x ↔ race_href_pattern year href x.
Proof.
  unfold match_race_href, race_href_pattern.
  destruct (strip_prefix (slug_prefix year) href) as [r|] eqn:E.
  - apply strip_prefix_Some in E as ->. rewrite slug_plus_spec.
    split.
    + intros (t & rest & -> & H). eauto.
    + intros (t & rest & Heq & H). apply app_inv_head in Heq. eauto.
  - split; [done|]. intros (t & rest & -> & _).
    assert (strip_prefix (slug_prefix year) (slug_prefix year ++ x ++ t ++ rest)
            = Some (x ++ t ++ rest)) as E' by by apply strip_prefix_Some.
    congruence.
Qed.

Lemma collect_slugs_foldl (year : Z) (hrefs : list pystr) (acc : gset pystr) (x : pystr) :
  x ∈ foldl (fun slugs a =>
               match match_race_href year (py_strip a) with
               | Some g => {[ g ]} ∪ slugs
               | None => slugs
               end) acc hrefs ↔
  x ∈ acc ∨ ∃ h, h ∈ hrefs ∧ match_race_href year (py_strip h) = Some x.
Proof.
  revert acc. induction hrefs as [|h hrefs IH]; intros acc; simpl.
  - split; [by left|]. intros [H|(h & Hh & _)]; [done|]. set_solver.
  - rewrite IH. destruct (match_race_href year (py_strip h)) as [g|] eqn:E.
    + split.
      * intros [Hx|Hx]; [|right; destruct Hx as (h' & ? & ?); exists h'; set_solver].
        apply elem_of_union in Hx as [Hx|Hx]; [|by left].
        apply elem_of_singleton in Hx as ->. right. exists h. set_solver.
      * intros [Hx|(h' & Hh' & Hm)]; [left; set_solver|].
        apply elem_of_cons in Hh' as [->|Hh'].
        -- left. rewrite E in Hm. injection Hm as ->. set_solver.
        -- right. eauto.
    + split.
      * intros [Hx|(h' & ? & ?)]; [by left|]. right. exists h'. set_solver.
      * intros [Hx|(h' & Hh' & Hm)]; [by left|].
        apply elem_of_cons in Hh' as [->|Hh']; [congruence|]. right. eauto.
Qed.

Lemma collect_slugs_spec (year : Z) (hrefs : list pystr) (x : pystr) :
  x ∈ collect_slugs year hrefs ↔
  ∃ h, h ∈ hrefs ∧ match_race_href year (py_strip h) = Some x.
Proof.
  unfold collect_slugs. rewrite collect_slugs_foldl. set_solver.
Qed.

(** ** Order on [datetime] *)

Lemma dt_gtb_irrefl a : dt_gtb a a = false.
Proof. apply str_ltb_irrefl. Qed.

Lemma dt_gtb_trans a b c :
  dt_gtb a b = true → dt_gtb b c = true → dt_gtb a c = true.
Proof. unfold dt_gtb. intros H1 H2. eapply str_ltb_trans; eauto. Qed.

(** [t > b] and [not (u > b)] give [t > u]. *)
Lemma dt_gtb_not_gtb a b c :
  dt_gtb a b = true → dt_gtb c b = false → dt_gtb a c = true.
Proof.
  unfold dt_gtb. intros H1 H2.
  destruct (str_ltb_trichotomy (dt_fields b) (dt_fields c)) as [E|[H|H]].
  - by rewrite <- E.
  - by rewrite H in H2.
  - eapply str_ltb_trans; eauto.
Qed.

(** [not (a > t)] and [a > c] give [t > c]. *)
Lemma dt_not_gtb_gtb a t c :
  dt_gtb a t = false → dt_gtb a c = true → dt_gtb t c = true.
Proof.
  unfold dt_gtb. intros H1 H2.
  destruct (str_ltb_trichotomy (dt_fields a) (dt_fields t)) as [E|[H|H]].
  - by rewrite <- E.
  - eapply str_ltb_trans; eauto.
  - by rewrite H in H1.
Qed.

(** ** The selection loop *)

Section PickProofs.
Variable head : pystr → head_response.
Variable strptime_lm : pystr → option datetime.

Local Abbreviation ctime := (candidate_time head strptime_lm).
Local Abbreviation loop := (pick_loop head strptime_lm).

(** Either nothing in [l] beats the running best, which stays, or the
    result is the first candidate of [l] whose timestamp is maximal and
    beats the running best. *)
Lemma pick_loop_spec (l : list pystr) best bd :
  (loop l best bd = (best, bd) ∧
   ∀ x tx, x ∈ l → ctime x = Some tx → ∃ b, bd = Some b ∧ dt_gtb tx b = false)
  ∨
  (∃ l1 r l2 t, l = l1 ++ r :: l2 ∧ loop l best bd = (Some r, Some t) ∧
     ctime r = Some t ∧ (∀ b, bd = Some b → dt_gtb t b = true) ∧
     (∀ x tx, x ∈ l1 → ctime x = Some tx → dt_gtb t tx = true) ∧
     (∀ x tx, x ∈ l2 → ctime x = Some tx → dt_gtb tx t = false)).
Proof.
  revert best bd. induction l as [|y l IH]; intros best bd.
  { left. split; [done|]. intros x tx Hx. by apply elem_of_nil in Hx. }
  (* the iteration is skipped *)
  assert (Hskip : ctime y = None →
    (loop (y :: l) best bd = loop l best bd) →
    (loop (y :: l) best bd = (best, bd) ∧
     ∀ x tx, x ∈ y :: l → ctime x = Some tx → ∃ b, bd = Some b ∧ dt_gtb tx b = false)
    ∨
    (∃ l1 r l2 t, y :: l = l1 ++ r :: l2 ∧ loop (y :: l) best bd = (Some r, Some t) ∧
       ctime r = Some t ∧ (∀ b, bd = Some b → dt_gtb t b = true) ∧
       (∀ x tx, x ∈ l1 → ctime x = Some tx → dt_gtb t tx = true) ∧
       (∀ x tx, x ∈ l2 → ctime x = Some tx → dt_gtb tx t = false))).
  { intros Hy Hstep. rewrite Hstep.
    destruct (IH best bd) as [[Hl Hall]|(l1 & r & l2 & t & -> & Hl & Hr & Hb & H1 & H2)].
    - left. split; [done|]. intros x tx Hx Htx.
      apply elem_of_cons in Hx as [->|Hx]; [congruence|]. eauto.
    - right. exists (y :: l1), r, l2, t. repeat split; try done.
      intros x tx Hx Htx. apply elem_of_cons in Hx as [->|Hx]; [congruence|]. eauto. }
  (* the iteration takes [y] as the new best *)
  assert (Htake : ∀ ty, ctime y = Some ty → (∀ b, bd = Some b → dt_gtb ty b = true) →
    loop (y :: l) best bd = loop l (Some y) (Some ty) →
    ∃ l1 r l2 t, y :: l = l1 ++ r :: l2 ∧ loop (y :: l) best bd = (Some r, Some t) ∧
       ctime r = Some t ∧ (∀ b, bd = Some b → dt_gtb t b = true) ∧
       (∀ x tx, x ∈ l1 → ctime x = Some tx → dt_gtb t tx = true) ∧
       (∀ x tx, x ∈ l2 → ctime x = Some tx → dt_gtb tx t = false)).
  { intros ty Hy Hgt Hstep. rewrite Hstep.
    destruct (IH (Some y) (Some ty)) as [[Hl Hall]|(l1 & r & l2 & t & -> & Hl & Hr & Hb & H1 & H2)].
    - exists [], y, l, ty. repeat split; try done.
      + intros x tx Hx. by apply elem_of_nil in Hx.
      + intros x tx Hx Htx. destruct (Hall x tx Hx Htx) as (b & [= <-] & Hb). done.
    - pose proof (Hb ty eq_refl) as Hty.
      exists (y :: l1), r, l2, t. repeat split; try done.
      + intros b Hbd. eapply dt_gtb_trans; eauto.
      + intros x tx Hx Htx. apply elem_of_cons in Hx as [->|Hx]; [congruence|]. eauto. }
  unfold candidate_time in Hskip, Htake.
  destruct (slug_fullmatch y) eqn:Ef.
  2:{ apply Hskip; [done|]. simpl. by rewrite Ef. }
  destruct (probe head strptime_lm y) as [ty|] eqn:Ep.
  2:{ apply Hskip; [done|]. simpl. by rewrite Ef, Ep. }
  destruct bd as [b|].
  2:{ right. apply (Htake ty); [done|done|]. simpl. by rewrite Ef, Ep. }
  destruct (dt_gtb ty b) eqn:Eg.
  { right. apply (Htake ty); [done|by intros ? [= <-]|]. simpl. by rewrite Ef, Ep, Eg. }
  assert (Hstep : loop (y :: l) best (Some b) = loop l best (Some b)).
  { simpl. by rewrite Ef, Ep, Eg. }
  rewrite Hstep.
  destruct (IH best (Some b)) as [[Hl Hall]|(l1 & r & l2 & t & -> & Hl & Hr & Hb & H1 & H2)].
  - left. split; [done|]. intros x tx Hx Htx.
    apply elem_of_cons in Hx as [->|Hx]; [|eauto].
    unfold candidate_time in Htx. rewrite Ef, Ep in Htx. injection Htx as <-. eauto.
  - right. exists (y :: l1), r, l2, t. repeat split; try done.
    intros x tx Hx Htx. apply elem_of_cons in Hx as [->|Hx]; [|eauto].
    unfold candidate_time in Htx. rewrite Ef, Ep in Htx. injection Htx as <-.
    eapply dt_gtb_not_gtb; [apply Hb|]; done.
Qed.

Lemma candidate_time_fullmatch x t : ctime x = Some t → slug_fullmatch x = true.
Proof. unfold candidate_time. by destruct (slug_fullmatch x). Qed.

Lemma fullmatch_nonempty x : slug_fullmatch x = true → x ≠ [].
Proof. by destruct x. Qed.

Lemma pick_latest_Returns (l : list pystr) r :
  pick_latest_race_slug head strptime_lm l = Returns r →
  ∃ l1 l2 t, l = l1 ++ r :: l2 ∧ ctime r = Some t ∧
    (∀ x tx, x ∈ l1 → ctime x = Some tx → dt_gtb t tx = true) ∧
    (∀ x tx, x ∈ l2 → ctime x = Some tx → dt_gtb tx t = false).
Proof.
  unfold pick_latest_race_slug.
  destruct (pick_loop_spec l None None) as [[Hl _]|(l1 & r' & l2 & t & -> & Hl & Hr & _ & H1 & H2)];
    rewrite Hl; simpl; [done|].
  destruct r' as [|z tl]; [done|]. intros [= <-].
  exists l1, l2, t. repeat split; assumption.
Qed.

Lemma pick_latest_all_skipped (l : list pystr) :
  (∀ x, x ∈ l → ctime x = None) →
  pick_latest_race_slug head strptime_lm l =
    Raises (RuntimeError (py "Could not determine latest race slug for this year.")).
Proof.
  intros Hall. unfold pick_latest_race_slug.
  destruct (pick_loop_spec l None None) as [[Hl _]|(l1 & r & l2 & t & -> & Hl & Hr & _)];
    rewrite Hl; simpl; [done|].
  rewrite Hall in Hr; [done|]. set_solver.
Qed.

Lemma pick_latest_some (l : list pystr) x tx :
  x ∈ l → ctime x = Some tx → ∃ r, pick_latest_race_slug head strptime_lm l = Returns r.
Proof.
  intros Hx Htx. unfold pick_latest_race_slug.
  destruct (pick_loop_spec l None None) as [[Hl Hall]|(l1 & r & l2 & t & -> & Hl & Hr & _)].
  - destruct (Hall x tx Hx Htx) as (b & [=] & _).
  - rewrite Hl. simpl. apply candidate_time_fullmatch in Hr.
    destruct r as [|c r]; [done|]. eauto.
Qed.
End PickProofs.

(** ** Discovery *)

Lemma get_race_slugs_mem (year : Z) (hrefs : list pystr) (x : pystr) :
  x ∈ get_race_slugs_for_year year hrefs ↔
  ∃ h, h ∈ hrefs ∧ match_race_href year (py_strip h) = Some x.
Proof.
  unfold get_race_slugs_for_year.
  rewrite (proj1 (py_sorted_spec _ (NoDup_elements _))), elem_of_elements.
  apply collect_slugs_spec.
Qed.

Lemma get_race_slugs_sorted (year : Z) (hrefs : list pystr) :
  StronglySorted str_lt (get_race_slugs_for_year year hrefs).
Proof. apply py_sorted_spec, NoDup_elements. Qed.

(** ** Harvesting *)

Lemma foldl_snoc_map {A B} (g : A → B) (xs : list A) (acc : list B) :
  foldl (λ out x, out ++ [g x]) acc xs = acc ++ map g xs.
Proof.
  revert acc. induction xs as [|x xs IH]; intros acc; simpl.
  - by rewrite app_nil_r.
  - rewrite IH, <- app_assoc. reflexivity.
Qed.

(** ** Output file naming *)

Lemma py_str_int_4digits (n : Z) :
  1000 ≤ n ≤ 9999 →
  py_str_int n =
    [48 + n / 10 / 10 / 10 mod 10; 48 + n / 10 / 10 mod 10;
     48 + n / 10 mod 10; 48 + n mod 10].
Proof.
  intros Hn.
  pose proof (Z.div_mod n 10 ltac:(lia)); pose proof (Z.mod_pos_bound n 10 ltac:(lia)).
  pose proof (Z.div_mod (n / 10) 10 ltac:(lia));
    pose proof (Z.mod_pos_bound (n / 10) 10 ltac:(lia)).
  pose proof (Z.div_mod (n / 10 / 10) 10 ltac:(lia));
    pose proof (Z.mod_pos_bound (n / 10 / 10) 10 ltac:(lia)).
  unfold py_str_int. destruct (Z.ltb_spec n 0); [lia|].
  destruct (Z.to_nat n) as [|[|[|k]]] eqn:E;
    try (apply (f_equal Z.of_nat) in E; rewrite Z2Nat.id in E; simpl in E; lia).
  simpl.
  destruct (Z.ltb_spec n 10); [lia|].
  destruct (Z.ltb_spec (n / 10) 10); [lia|].
  destruct (Z.ltb_spec (n / 10 / 10) 10); [lia|].
  destruct (Z.ltb_spec (n / 10 / 10 / 10) 10); [|lia].
  reflexivity.
Qed.

Lemma digit_eq (a b : Z) :
  a = 10 * (a / 10) + a mod 10 → b = 10 * (b / 10) + b mod 10 →
  a / 10 = b / 10 → a mod 10 = b mod 10 → a = b.
Proof. lia. Qed.

Lemma pad2_inj (a b : Z) : 0 ≤ a < 100 → 0 ≤ b < 100 → pad2 a = pad2 b → a = b.
Proof.
  unfold pad2. intros Ha Hb [= H1 H2].
  apply digit_eq; [apply Z.div_mod; lia|apply Z.div_mod; lia|lia|lia].
Qed.

Lemma py_str_int_4digits_inj (a b : Z) :
  1000 ≤ a ≤ 9999 → 1000 ≤ b ≤ 9999 → py_str_int a = py_str_int b → a = b.
Proof.
  intros Ha Hb. rewrite (py_str_int_4digits a Ha), (py_str_int_4digits b Hb).
  intros [= H1 H2 H3 H4].
  assert (a / 10 / 10 / 10 = b / 10 / 10 / 10).
  { assert (a / 10 / 10 / 10 < 10).
    { apply Z.div_lt_upper_bound; [lia|]. apply Z.div_lt_upper_bound; [lia|].
      apply Z.div_lt_upper_bound; lia. }
    assert (b / 10 / 10 / 10 < 10).
    { apply Z.div_lt_upper_bound; [lia|]. apply Z.div_lt_upper_bound; [lia|].
      apply Z.div_lt_upper_bound; lia. }
    assert (0 ≤ a / 10 / 10 / 10) by (repeat apply Z.div_pos; lia).
    assert (0 ≤ b / 10 / 10 / 10) by (repeat apply Z.div_pos; lia).
    rewrite !Z.mod_small in H1; lia. }
  apply digit_eq; [apply Z.div_mod; lia|apply Z.div_mod; lia| |lia].
  apply digit_eq; [apply Z.div_mod; lia|apply Z.div_mod; lia| |lia].
  apply digit_eq; [apply Z.div_mod; lia|apply Z.div_mod; lia|lia|lia].
Qed.

Lemma strftime_stamp_length (d : datetime) :
  run_time_ok d → length (strftime_stamp d) = 13%nat.
Proof.
  intros (Hy & _). unfold strftime_stamp. rewrite py_str_int_4digits by lia.
  reflexivity.
Qed.

Lemma strftime_stamp_inj (d1 d2 : datetime) :
  run_time_ok d1 → run_time_ok d2 → strftime_stamp d1 = strftime_stamp d2 →
  dt_year d1 = dt_year d2 ∧ dt_month d1 = dt_month d2 ∧ dt_day d1 = dt_day d2 ∧
  dt_hour d1 = dt_hour d2 ∧ dt_minute d1 = dt_minute d2.
Proof.
  intros H1 H2 Heq. pose proof H1 as (Hy1 & Hm1 & Hd1 & Hh1 & Hn1).
  pose proof H2 as (Hy2 & Hm2 & Hd2 & Hh2 & Hn2).
  unfold strftime_stamp in Heq.
  apply app_inj_1 in Heq as [Hy Heq];
    [|rewrite !py_str_int_4digits by lia; reflexivity].
  apply app_inj_1 in Heq as [Hm Heq]; [|reflexivity].
  apply app_inj_1 in Heq as [Hd Heq]; [|reflexivity].
  apply app_inj_1 in Heq as [_ Heq]; [|reflexivity].
  apply app_inj_1 in Heq as [Hh Hn]; [|reflexivity].
  repeat split.
  - by apply py_str_int_4digits_inj.
  - apply pad2_inj; [lia|lia|done].
  - apply pad2_inj; [lia|lia|done].
  - apply pad2_inj; [lia|lia|done].
  - apply pad2_inj; [lia|lia|done].
Qed.

(* ================================================================== *)
(** * Claims *)

(** C1: [get_race_slugs_for_year] returns exactly the slugs captured from
    the (stripped) [href] targets that match [/en/{year}/], a non-empty
    run of lowercase letters, digits and hyphens, then [/] or [.aspx];
    the list is strictly increasing, so each slug appears once whatever
    duplicate or malformed targets the page holds. *)
Theorem get_race_slugs_for_year_exact (year : Z) (hrefs : list pystr) :
  (∀ x, x ∈ get_race_slugs_for_year year hrefs ↔
        ∃ h, h ∈ hrefs ∧ race_href_pattern year (py_strip h) x) ∧
  StronglySorted str_lt (get_race_slugs_for_year year hrefs).
Proof.
  split; [|apply get_race_slugs_sorted].
  intros x. rewrite get_race_slugs_mem.
  split; intros (h & Hh & Hm); exists h; split; try done;
    by apply match_race_href_spec.
Qed.

(** C2: whenever [pick_latest_race_slug] returns a slug, the HEAD probe
    of that slug's page did not raise, answered with a status below 400,
    and its [Last-Modified] header, if present, parsed. *)
Theorem pick_latest_never_failed_probe (head : pystr → head_response)
    (strptime_lm : pystr → option datetime) (slugs : list pystr) (r : pystr) :
  pick_latest_race_slug head strptime_lm slugs = Returns r →
  ∃ status lm, head (race_url r) = HeadResponse status lm ∧ status < 400 ∧
    ∀ s, lm = Some s → s ≠ [] → strptime_lm s ≠ None.
Proof.
  intros Hp. destruct (pick_latest_Returns _ _ _ _ Hp) as (l1 & l2 & t & _ & Hr & _).
  unfold candidate_time, probe in Hr. destruct (slug_fullmatch r); [|done].
  destruct (head (race_url r)) as [|status lm]; [done|].
  destruct (400 <=? status) eqn:Es; [done|].
  exists status, lm. split; [done|]. split; [lia|].
  intros s -> Hne. destruct s as [|c s]; [done|]. congruence.
Qed.

Lemma pick_latest_never_failed_probe_witness :
  pick_latest_race_slug scenario_head strptime_imf_fixdate
    [py "abou-dhabi"; py "las-vegas"] = Returns (py "abou-dhabi") ∧
  ∃ status lm, scenario_head (race_url (py "abou-dhabi")) = HeadResponse status lm ∧
    status < 400 ∧ ∀ s, lm = Some s → s ≠ [] → strptime_imf_fixdate s ≠ None.
Proof.
  split; [vm_compute; reflexivity|].
  apply (pick_latest_never_failed_probe scenario_head strptime_imf_fixdate
           [py "abou-dhabi"; py "las-vegas"]).
  vm_compute; reflexivity.
Defined.

(** C4 (amended): when some candidate passes the re-validation and its
    probe succeeds with a [Last-Modified] header that parses to a
    timestamp later than [datetime.min], the slug returned is one whose
    probe succeeded with a parsed header later than [datetime.min]; a
    candidate without the header is never chosen over it, whatever the
    order.  A header that parses to exactly [datetime.min] ties with a
    missing header: of two such candidates, in either order, the
    first-seen one is returned. *)
Theorem pick_prefers_later_header (head : pystr → head_response)
    (strptime_lm : pystr → option datetime) :
  (∀ (slugs : list pystr) (s1 lm1 : pystr) (st1 : Z) (t1 : datetime),
    s1 ∈ slugs → slug_fullmatch s1 = true →
    head (race_url s1) = HeadResponse st1 (Some lm1) → st1 < 400 → lm1 ≠ [] →
    strptime_lm lm1 = Some t1 → dt_gtb t1 datetime_min = true →
    ∃ r st lm t, pick_latest_race_slug head strptime_lm slugs = Returns r ∧
      head (race_url r) = HeadResponse st (Some lm) ∧ st < 400 ∧ lm ≠ [] ∧
      strptime_lm lm = Some t ∧ dt_gtb t datetime_min = true) ∧
  (∀ (a b lm : pystr) (sa sb : Z),
    slug_fullmatch a = true → head (race_url a) = HeadResponse sa None → sa < 400 →
    slug_fullmatch b = true → head (race_url b) = HeadResponse sb (Some lm) → sb < 400 →
    lm ≠ [] → strptime_lm lm = Some datetime_min →
    pick_latest_race_slug head strptime_lm [a; b] = Returns a ∧
    pick_latest_race_slug head strptime_lm [b; a] = Returns b).
Proof.
  split.
  - intros slugs s1 lm1 st1 t1 Hin Hf Hh Hst Hne Hp Hgt.
    assert (Hc1 : candidate_time head strptime_lm s1 = Some t1).
    { unfold candidate_time, probe. rewrite Hf, Hh.
      destruct (400 <=? st1) eqn:E; [lia|]. destruct lm1; [done|]. exact Hp. }
    destruct (pick_latest_some _ _ _ _ _ Hin Hc1) as [r Hr].
    destruct (pick_latest_Returns _ _ _ _ Hr) as (l1 & l2 & t & -> & Hct & H1 & H2).
    assert (Ht : dt_gtb t datetime_min = true).
    { apply elem_of_app in Hin as [Hin|Hin].
      - eapply dt_gtb_trans; [apply (H1 _ _ Hin Hc1)|done].
      - apply elem_of_cons in Hin as [->|Hin].
        + rewrite Hc1 in Hct. by injection Hct as <-.
        + eapply dt_not_gtb_gtb; [apply (H2 _ _ Hin Hc1)|done]. }
    unfold candidate_time, probe in Hct. destruct (slug_fullmatch r); [|done].
    destruct (head (race_url r)) as [|st lm] eqn:Eh; [done|].
    destruct (400 <=? st) eqn:Es; [done|].
    destruct lm as [[|c lm]|].
    + injection Hct as <-. by rewrite dt_gtb_irrefl in Ht.
    + exists r, st, (c :: lm), t.
      split; [done|]. split; [done|]. split; [lia|]. split; [done|]. done.
    + injection Hct as <-. by rewrite dt_gtb_irrefl in Ht.
  - intros a b lm sa sb Hfa Hha Hsa Hfb Hhb Hsb Hne Hpb.
    assert (Ha : candidate_time head strptime_lm a = Some datetime_min).
    { unfold candidate_time, probe. rewrite Hfa, Hha.
      destruct (400 <=? sa) eqn:E; [lia|]. reflexivity. }
    assert (Hb : candidate_time head strptime_lm b = Some datetime_min).
    { unfold candidate_time, probe. rewrite Hfb, Hhb.
      destruct (400 <=? sb) eqn:E; [lia|]. destruct lm; [done|]. exact Hpb. }
    assert (Htie : ∀ x y, candidate_time head strptime_lm x = Some datetime_min →
                          candidate_time head strptime_lm y = Some datetime_min →
                          pick_latest_race_slug head strptime_lm [x; y] = Returns x).
    { intros x y Hx Hy.
      destruct (pick_latest_some head strptime_lm [x; y] x datetime_min
                  (list_elem_of_here _ _) Hx) as [r Hr].
      rewrite Hr. destruct (pick_latest_Returns _ _ _ _ Hr) as (l1 & l2 & t & Heq & Hct & H1 & _).
      destruct l1 as [|z [|z' l1]]; simpl in Heq.
      - by injection Heq as <-.
      - injection Heq as <- <- _. rewrite Hy in Hct. injection Hct as <-.
        pose proof (H1 x datetime_min (list_elem_of_here _ _) Hx) as Hg.
        by rewrite dt_gtb_irrefl in Hg.
      - injection Heq as _ _ Heq. destruct l1; discriminate. }
    split; by apply Htie.
Qed.

Lemma pick_prefers_later_header_witness :
  (∃ r st lm t,
    pick_latest_race_slug mixed_head strptime_imf_fixdate
      [py "australie"; py "abou-dhabi"] = Returns r ∧
    mixed_head (race_url r) = HeadResponse st (Some lm) ∧ st < 400 ∧ lm ≠ [] ∧
    strptime_imf_fixdate lm = Some t ∧ dt_gtb t datetime_min = true) ∧
  pick_latest_race_slug mixed_head strptime_imf_fixdate
    [py "australie"; py "bahrein"] = Returns (py "australie") ∧
  pick_latest_race_slug mixed_head strptime_imf_fixdate
    [py "bahrein"; py "australie"] = Returns (py "bahrein").
Proof.
  destruct (pick_prefers_later_header mixed_head strptime_imf_fixdate) as [Hpref Htie].
  split.
  - apply (Hpref [py "australie"; py "abou-dhabi"] (py "abou-dhabi")
             (py "Tue, 03 Dec 2025 10:00:00 GMT") 200 (mk_datetime 2025 12 3 10 0 0 0)).
    + apply list_elem_of_further, list_elem_of_here.
    + vm_compute; reflexivity.
    + vm_compute; reflexivity.
    + lia.
    + discriminate.
    + vm_compute; reflexivity.
    + vm_compute; reflexivity.
  - apply (Htie (py "australie") (py "bahrein") (py "Mon, 01 Jan 0001 00:00:00 GMT") 200 200);
      first [vm_compute; reflexivity | lia | discriminate].
Defined.

(** C4 fails as stated: a header that parses validly to exactly
    [datetime.min] ties with a missing header, and the first-seen
    candidate, the one without the header, is returned. *)
Lemma pick_header_at_min_loses_counterexample :
  epoch_header_head (race_url (py "bahrein"))
    = HeadResponse 200 (Some (py "Mon, 01 Jan 0001 00:00:00 GMT")) ∧
  strptime_imf_fixdate (py "Mon, 01 Jan 0001 00:00:00 GMT") = Some datetime_min ∧
  epoch_header_head (race_url (py "australie")) = HeadResponse 200 None ∧
  pick_latest_race_slug epoch_header_head strptime_imf_fixdate
    [py "australie"; py "bahrein"] = Returns (py "australie").
Proof. vm_compute. repeat split. Qed.

(** C5: the slug returned is the first, in the order of the list, of
    the candidates with the maximal timestamp: every earlier candidate
    that reached the comparison has a strictly earlier timestamp (so none
    ties with it), and no later one has a later timestamp.  Of two
    candidates with identical timestamps, the later one is never chosen
    over the earlier one. *)
Theorem pick_latest_first_seen_wins (head : pystr → head_response)
    (strptime_lm : pystr → option datetime) (slugs : list pystr) (r : pystr) :
  pick_latest_race_slug head strptime_lm slugs = Returns r →
  ∃ l1 l2 t, slugs = l1 ++ r :: l2 ∧
    candidate_time head strptime_lm r = Some t ∧
    (∀ x, x ∈ l1 → candidate_time head strptime_lm x ≠ Some t) ∧
    (∀ x tx, x ∈ l1 → candidate_time head strptime_lm x = Some tx →
             dt_gtb t tx = true) ∧
    (∀ x tx, x ∈ l2 → candidate_time head strptime_lm x = Some tx →
             dt_gtb tx t = false).
Proof.
  intros Hp. destruct (pick_latest_Returns _ _ _ _ Hp) as (l1 & l2 & t & -> & Hr & H1 & H2).
  exists l1, l2, t. repeat split; try done.
  intros x Hx Hxt. pose proof (H1 x t Hx Hxt) as H. by rewrite dt_gtb_irrefl in H.
Qed.

Lemma pick_latest_first_seen_wins_witness :
  pick_latest_race_slug same_date_head strptime_imf_fixdate
    [py "abou-dhabi"; py "las-vegas"] = Returns (py "abou-dhabi") ∧
  ∃ l1 l2 t, [py "abou-dhabi"; py "las-vegas"] = l1 ++ py "abou-dhabi" :: l2 ∧
    candidate_time same_date_head strptime_imf_fixdate (py "abou-dhabi") = Some t ∧
    (∀ x, x ∈ l1 → candidate_time same_date_head strptime_imf_fixdate x ≠ Some t) ∧
    (∀ x tx, x ∈ l1 → candidate_time same_date_head strptime_imf_fixdate x = Some tx →
             dt_gtb t tx = true) ∧
    (∀ x tx, x ∈ l2 → candidate_time same_date_head strptime_imf_fixdate x = Some tx →
             dt_gtb tx t = false).
Proof.
  split; [vm_compute; reflexivity|].
  apply pick_latest_first_seen_wins. vm_compute; reflexivity.
Defined.

(** C6: [safe_sheet_name] is idempotent, its result has at most 31
    code points and none of [: \ / ? * [ ]]. *)
Theorem safe_sheet_name_idempotent_bounded (name : pystr) :
  safe_sheet_name (safe_sheet_name name) = safe_sheet_name name ∧
  (length (safe_sheet_name name) ≤ 31)%nat ∧
  Forall (λ c, is_bad_sheet_char c = false) (safe_sheet_name name).
Proof.
  set (f := λ c, if is_bad_sheet_char c then 45 else c).
  assert (Hf : ∀ c, is_bad_sheet_char (f c) = false).
  { intros c. unfold f. destruct (is_bad_sheet_char c) eqn:E; [reflexivity|exact E]. }
  assert (Hff : ∀ c, f (f c) = f c).
  { intros c. unfold f at 1. by rewrite Hf. }
  unfold safe_sheet_name. fold f. split; [|split].
  - rewrite <- firstn_map, map_map, (map_ext _ f Hff), take_take, Nat.min_id. reflexivity.
  - rewrite length_take. lia.
  - apply Forall_forall. intros c Hc.
    apply elem_of_take in Hc as (i & Hi & _).
    apply list_lookup_fmap_Some_1 in Hi as (c' & -> & _). apply Hf.
Qed.

(** C7: when every candidate is filtered by the re-validation, or its
    probe raises, answers with a status of 400 or more, or carries a
    header that does not parse, [pick_latest_race_slug] raises its
    [RuntimeError] and returns no slug. *)
Theorem pick_latest_fails_without_success (head : pystr → head_response)
    (strptime_lm : pystr → option datetime) (slugs : list pystr) :
  (∀ x, x ∈ slugs →
     slug_fullmatch x = false ∨ head (race_url x) = HeadRaises ∨
     (∃ st lm, head (race_url x) = HeadResponse st lm ∧ 400 ≤ st) ∨
     (∃ st lm, head (race_url x) = HeadResponse st (Some lm) ∧ lm ≠ [] ∧
               strptime_lm lm = None)) →
  pick_latest_race_slug head strptime_lm slugs =
    Raises (RuntimeError (py "Could not determine latest race slug for this year.")).
Proof.
  intros Hall. apply pick_latest_all_skipped. intros x Hx.
  unfold candidate_time, probe.
  destruct (Hall x Hx) as [->|[Hh|[(st & lm & Hh & Hst)|(st & lm & Hh & Hne & Hp)]]];
    [done| | |]; destruct (slug_fullmatch x); try done; rewrite Hh; [done| |].
  - by destruct (Z.leb_spec 400 st); [|lia].
  - destruct (400 <=? st); [done|]. destruct lm; [done|]. exact Hp.
Qed.

Lemma pick_latest_fails_without_success_witness :
  pick_latest_race_slug (λ _, HeadResponse 404 None) strptime_imf_fixdate
    [py "abou-dhabi"; py "las-vegas"; py "Bad"] =
  Raises (RuntimeError (py "Could not determine latest race slug for this year.")).
Proof.
  apply pick_latest_fails_without_success. intros x Hx.
  apply elem_of_cons in Hx as [->|Hx].
  { right; right; left. exists 404, None. split; [reflexivity|lia]. }
  apply elem_of_cons in Hx as [->|Hx].
  { right; right; left. exists 404, None. split; [reflexivity|lia]. }
  apply elem_of_cons in Hx as [->|Hx]; [left; vm_compute; reflexivity|].
  by apply elem_of_nil in Hx.
Defined.

(** C8: a slug returned by [pick_latest_race_slug] is one of its
    candidates. *)
Theorem pick_latest_returns_candidate (head : pystr → head_response)
    (strptime_lm : pystr → option datetime) (slugs : list pystr) (r : pystr) :
  pick_latest_race_slug head strptime_lm slugs = Returns r → r ∈ slugs.
Proof.
  intros Hp. destruct (pick_latest_Returns _ _ _ _ Hp) as (l1 & l2 & t & -> & _).
  set_solver.
Qed.

Lemma pick_latest_returns_candidate_witness :
  pick_latest_race_slug scenario_head strptime_imf_fixdate
    [py "abou-dhabi"; py "las-vegas"] = Returns (py "abou-dhabi") ∧
  py "abou-dhabi" ∈ [py "abou-dhabi"; py "las-vegas"].
Proof.
  split; [vm_compute; reflexivity|].
  apply (pick_latest_returns_candidate scenario_head strptime_imf_fixdate).
  vm_compute; reflexivity.
Defined.

(** C9: every slug discovered matches [[a-z0-9\-]+] in full, so the
    re-validation at the start of the selection loop lets it through:
    its candidate timestamp is that of its probe. *)
Theorem discovered_slugs_pass_revalidation (year : Z) (hrefs : list pystr)
    (s : pystr) :
  s ∈ get_race_slugs_for_year year hrefs →
  slug_fullmatch s = true ∧
  ∀ head strptime_lm,
    candidate_time head strptime_lm s = probe head strptime_lm s.
Proof.
  intros Hs. apply get_race_slugs_mem in Hs as (h & _ & Hm).
  apply match_race_href_spec in Hm as (t & rest & _ & Hne & Hall & _).
  assert (Hf : slug_fullmatch s = true).
  { destruct s as [|c s]; [done|]. unfold slug_fullmatch.
    apply forallb_forall. intros c' Hc'. rewrite Forall_forall in Hall.
    apply Hall. by apply list_elem_of_In. }
  split; [done|]. intros head strptime_lm. unfold candidate_time. by rewrite Hf.
Qed.

Lemma discovered_slugs_pass_revalidation_witness :
  py "abou-dhabi" ∈ get_race_slugs_for_year 2025
    [py "/en/2025/abou-dhabi/classement.aspx"; py "/en/2025/las-vegas.aspx";
     py "/en/2025/../x.aspx"] ∧
  slug_fullmatch (py "abou-dhabi") = true.
Proof.
  assert (H : py "abou-dhabi" ∈ get_race_slugs_for_year 2025
    [py "/en/2025/abou-dhabi/classement.aspx"; py "/en/2025/las-vegas.aspx";
     py "/en/2025/../x.aspx"]).
  { apply (bool_decide_unpack _). vm_compute. reflexivity. }
  split; [exact H|].
  exact (proj1 (discovered_slugs_pass_revalidation _ _ _ H)).
Defined.

(** C10: [scrape_tables] returns one frame per table parsed, in parse
    order; each keeps its row index and row data and gets, as column
    labels, the stripped [str] of the old ones. *)
Theorem scrape_tables_only_headers {O C : Type} (obj_str : O → pystr)
    (read_html : pystr → py_result (list (DataFrame O C)))
    (url : pystr) (dfs : list (DataFrame O C)) :
  read_html url = Returns dfs →
  ∃ out, scrape_tables obj_str read_html url = Returns out ∧
    length out = length dfs ∧
    ∀ i df, dfs !! i = Some df →
      ∃ df', out !! i = Some df' ∧
        df_columns df' = map (λ c, LStr (py_strip (label_str obj_str c)))
                             (df_columns df) ∧
        df_index df' = df_index df ∧ df_values df' = df_values df.
Proof.
  intros Hr. unfold scrape_tables. rewrite Hr, foldl_snoc_map. simpl.
  eexists. split; [reflexivity|]. split; [apply length_map|].
  intros i df Hi. exists (set_columns obj_str df).
  split; [|done]. rewrite list_lookup_fmap, Hi. reflexivity.
Qed.

Lemma scrape_tables_only_headers_witness :
  ∃ out, scrape_tables py_str_int
           (λ _, Returns [@mk_df Z Z [LStr (py " Pos "); LObj 2] [] [[1; 7]]])
           (py "https://www.statsf1.com/en/2025/abou-dhabi/grille.aspx")
         = Returns out ∧
    length out = length [@mk_df Z Z [LStr (py " Pos "); LObj 2] [] [[1; 7]]] ∧
    ∀ i df, [@mk_df Z Z [LStr (py " Pos "); LObj 2] [] [[1; 7]]] !! i = Some df →
      ∃ df', out !! i = Some df' ∧
        df_columns df' = map (λ c, LStr (py_strip (label_str py_str_int c)))
                             (df_columns df) ∧
        df_index df' = df_index df ∧ df_values df' = df_values df.
Proof.
  apply (scrape_tables_only_headers py_str_int
           (λ _, Returns [@mk_df Z Z [LStr (py " Pos "); LObj 2] [] [[1; 7]]])
           (py "https://www.statsf1.com/en/2025/abou-dhabi/grille.aspx")
           [@mk_df Z Z [LStr (py " Pos "); LObj 2] [] [[1; 7]]]).
  reflexivity.
Defined.

(** C3 (amended): the output file is named
    [statsf1_{YEAR}_{slug}_{YYYYMMDD_HHMM}.xlsx], a function of the
    slug and of the run time truncated to the minute: two runs get the
    same name exactly when they select the same slug in the same minute
    (same year, month, day, hour and minute). *)
Theorem out_file_name_collision_iff (slug1 slug2 : pystr) (d1 d2 : datetime) :
  run_time_ok d1 → run_time_ok d2 →
  out_file_name slug1 d1 =
    py "statsf1_" ++ py_str_int YEAR ++ py "_" ++ slug1 ++ py "_" ++
    py_str_int (dt_year d1) ++ pad2 (dt_month d1) ++ pad2 (dt_day d1) ++
    py "_" ++ pad2 (dt_hour d1) ++ pad2 (dt_minute d1) ++ py ".xlsx" ∧
  (out_file_name slug1 d1 = out_file_name slug2 d2 ↔
   slug1 = slug2 ∧ dt_year d1 = dt_year d2 ∧ dt_month d1 = dt_month d2 ∧
   dt_day d1 = dt_day d2 ∧ dt_hour d1 = dt_hour d2 ∧ dt_minute d1 = dt_minute d2).
Proof.
  intros H1 H2. split.
  { unfold out_file_name, strftime_stamp. rewrite <- !app_assoc. reflexivity. }
  split.
  - intros Heq. unfold out_file_name in Heq.
    do 3 apply app_inv_head in Heq.
    apply app_inj_2 in Heq as [Hs Heq].
    2:{ rewrite !length_app, !strftime_stamp_length by done. reflexivity. }
    apply app_inv_head in Heq.
    apply app_inj_2 in Heq as [Heq _]; [|reflexivity].
    split; [done|]. by apply strftime_stamp_inj.
  - intros (-> & Hy & Hm & Hd & Hh & Hn). unfold out_file_name, strftime_stamp.
    by rewrite Hy, Hm, Hd, Hh, Hn.
Qed.

Lemma out_file_name_collision_iff_witness :
  out_file_name (py "abou-dhabi") (mk_datetime 2025 12 7 14 30 5 0) =
  out_file_name (py "abou-dhabi") (mk_datetime 2025 12 7 14 30 48 0).
Proof.
  apply (out_file_name_collision_iff (py "abou-dhabi") (py "abou-dhabi")
           (mk_datetime 2025 12 7 14 30 5 0) (mk_datetime 2025 12 7 14 30 48 0));
    [unfold run_time_ok; simpl; lia|unfold run_time_ok; simpl; lia|].
  repeat split.
Defined.

(** C3 fails as stated: two runs in the same minute that select the same
    race produce the same file name. *)
Lemma out_file_name_same_minute_counterexample :
  mk_datetime 2025 12 7 14 30 5 0 ≠ mk_datetime 2025 12 7 14 30 48 0 ∧
  out_file_name (py "abou-dhabi") (mk_datetime 2025 12 7 14 30 5 0) =
  out_file_name (py "abou-dhabi") (mk_datetime 2025 12 7 14 30 48 0).
Proof. split; [discriminate|vm_compute; reflexivity]. Qed.

(* ================================================================== *)
(** * Further properties of the script *)

(** ** Helpers *)

Lemma dt_fields_inj (a b : datetime) : dt_fields a = dt_fields b → a = b.
Proof. destruct a, b. simpl. intros [= -> -> -> -> -> -> ->]. reflexivity. Qed.

Lemma pick_latest_max (head : pystr → head_response)
    (strptime_lm : pystr → option datetime) (l : list pystr) r :
  pick_latest_race_slug head strptime_lm l = Returns r →
  ∃ t, r ∈ l ∧ candidate_time head strptime_lm r = Some t ∧
    ∀ x tx, x ∈ l → candidate_time head strptime_lm x = Some tx → dt_gtb tx t = false.
Proof.
  intros Hp. destruct (pick_latest_Returns _ _ _ _ Hp) as (l1 & l2 & t & -> & Hr & H1 & H2).
  exists t. split; [set_solver|]. split; [done|].
  intros x tx Hx Htx. apply elem_of_app in Hx as [Hx|Hx].
  - apply str_ltb_asym, (H1 x tx Hx Htx).
  - apply elem_of_cons in Hx as [->|Hx]; [|eauto].
    rewrite Hr in Htx. injection Htx as <-. apply dt_gtb_irrefl.
Qed.

Lemma pick_latest_Raises_skipped (head : pystr → head_response)
    (strptime_lm : pystr → option datetime) (l : list pystr) e :
  pick_latest_race_slug head strptime_lm l = Raises e →
  ∀ x, x ∈ l → candidate_time head strptime_lm x = None.
Proof.
  intros Hp x Hx. destruct (candidate_time head strptime_lm x) as [tx|] eqn:E; [|done].
  destruct (pick_latest_some _ _ _ _ _ Hx E) as [r Hr]. congruence.
Qed.

Lemma pick_loop_filter (head : pystr → head_response)
    (strptime_lm : pystr → option datetime) (l : list pystr) best bd :
  pick_loop head strptime_lm (List.filter (reaches_comparison head strptime_lm) l) best bd =
  pick_loop head strptime_lm l best bd.
Proof.
  revert best bd. induction l as [|y l IH]; intros best bd; [done|].
  simpl. unfold reaches_comparison, candidate_time at 1.
  destruct (slug_fullmatch y) eqn:Ef; simpl; [|apply IH].
  destruct (probe head strptime_lm y) as [t|] eqn:Ep; simpl; [|apply IH].
  rewrite Ef, Ep. destruct bd as [b|]; [destruct (dt_gtb t b)|]; apply IH.
Qed.

Lemma StronglySorted_str_lt_NoDup (l : list pystr) : StronglySorted str_lt l → NoDup l.
Proof.
  induction l as [|x l IH]; intros Hs; [constructor|].
  apply StronglySorted_inv in Hs as [Hs Hf]. constructor; [|by apply IH].
  intros Hx. rewrite Forall_forall in Hf. pose proof (Hf x Hx) as H.
  unfold str_lt in H. by rewrite str_ltb_irrefl in H.
Qed.

#[global] Instance str_lt_antisymm : AntiSymm (=) str_lt.
Proof.
  intros a b H1 H2. unfold str_lt in *. by rewrite (str_ltb_asym _ _ H1) in H2.
Qed.

(** ** Extras on discovery and selection *)

(** The slugs discovered depend only on which [href] values occur on the
    anchor page: neither their order nor their repetition matters. *)
Theorem get_race_slugs_set_determined (year : Z) (h1 h2 : list pystr) :
  (∀ h, h ∈ h1 ↔ h ∈ h2) →
  get_race_slugs_for_year year h1 = get_race_slugs_for_year year h2.
Proof.
  intros Heq. apply (StronglySorted_unique str_lt); [apply get_race_slugs_sorted..|].
  apply NoDup_Permutation; [apply StronglySorted_str_lt_NoDup, get_race_slugs_sorted..|].
  intros x. rewrite !get_race_slugs_mem. split; intros (h & Hh & Hm); exists h; split;
    [by apply Heq|done|by apply Heq|done].
Qed.

Lemma get_race_slugs_set_determined_witness :
  (∀ h, h ∈ [py "/en/2025/las-vegas.aspx"; py "/en/2025/abou-dhabi/"; py "/en/2025/las-vegas.aspx"]
        ↔ h ∈ [py "/en/2025/abou-dhabi/"; py "/en/2025/las-vegas.aspx"]) ∧
  get_race_slugs_for_year 2025 [py "/en/2025/las-vegas.aspx"; py "/en/2025/abou-dhabi/";
                                 py "/en/2025/las-vegas.aspx"] =
  get_race_slugs_for_year 2025 [py "/en/2025/abou-dhabi/"; py "/en/2025/las-vegas.aspx"].
Proof.
  assert (H : ∀ h, h ∈ [py "/en/2025/las-vegas.aspx"; py "/en/2025/abou-dhabi/";
                        py "/en/2025/las-vegas.aspx"]
                   ↔ h ∈ [py "/en/2025/abou-dhabi/"; py "/en/2025/las-vegas.aspx"]).
  { intros h. rewrite !elem_of_cons, elem_of_nil. tauto. }
  split; [exact H|]. exact (get_race_slugs_set_determined 2025 _ _ H).
Defined.

(** [pick_latest_race_slug] raises exactly when no candidate reaches the
    comparison, and then always with its own [RuntimeError]. *)
Theorem pick_latest_raises_iff (head : pystr → head_response)
    (strptime_lm : pystr → option datetime) (slugs : list pystr) (e : py_exception) :
  pick_latest_race_slug head strptime_lm slugs = Raises e ↔
  e = RuntimeError (py "Could not determine latest race slug for this year.") ∧
  ∀ x, x ∈ slugs → candidate_time head strptime_lm x = None.
Proof.
  split.
  - intros Hp. pose proof (pick_latest_Raises_skipped _ _ _ _ Hp) as Hall.
    rewrite (pick_latest_all_skipped _ _ _ Hall) in Hp. injection Hp as <-. done.
  - intros [-> Hall]. by apply pick_latest_all_skipped.
Qed.

(** Candidates that do not reach the comparison (re-validation fails,
    the probe raises, the status is 400 or more, the header does not
    parse) have no influence on the selection: dropping them beforehand
    gives the same outcome. *)
Theorem pick_latest_ignores_skipped (head : pystr → head_response)
    (strptime_lm : pystr → option datetime) (slugs : list pystr) :
  pick_latest_race_slug head strptime_lm
    (List.filter (reaches_comparison head strptime_lm) slugs) =
  pick_latest_race_slug head strptime_lm slugs.
Proof. unfold pick_latest_race_slug. by rewrite pick_loop_filter. Qed.

(** When no two distinct candidates reaching the comparison share a
    timestamp, the selection does not depend on the order of the
    candidate list. *)
Theorem pick_latest_permutation_invariant (head : pystr → head_response)
    (strptime_lm : pystr → option datetime) (l l' : list pystr) :
  l ≡ₚ l' →
  (∀ x y t, x ∈ l → y ∈ l → candidate_time head strptime_lm x = Some t →
            candidate_time head strptime_lm y = Some t → x = y) →
  pick_latest_race_slug head strptime_lm l = pick_latest_race_slug head strptime_lm l'.
Proof.
  intros Hperm Hdist.
  destruct (pick_latest_race_slug head strptime_lm l) as [r|e] eqn:E.
  - destruct (pick_latest_max _ _ _ _ E) as (t & Hr & Hct & Hmax).
    assert (Hr' : r ∈ l') by by rewrite <- Hperm.
    destruct (pick_latest_some _ _ _ _ _ Hr' Hct) as [r' E'].
    destruct (pick_latest_max _ _ _ _ E') as (t' & Hr'' & Hct' & Hmax').
    assert (Hin : r' ∈ l) by by rewrite Hperm.
    pose proof (Hmax r' t' Hin Hct') as Ha. pose proof (Hmax' r t Hr' Hct) as Hb.
    unfold dt_gtb in Ha, Hb.
    destruct (str_ltb_trichotomy (dt_fields t) (dt_fields t')) as [Ht|[Ht|Ht]];
      [|congruence|congruence].
    apply dt_fields_inj in Ht as <-.
    rewrite (Hdist r r' t Hr Hin Hct Hct'). done.
  - pose proof (pick_latest_Raises_skipped _ _ _ _ E) as Hall.
    rewrite (pick_latest_all_skipped _ _ _ Hall) in E. rewrite <- E.
    symmetry. apply pick_latest_all_skipped. intros x Hx. apply Hall. by rewrite Hperm.
Qed.

Lemma pick_latest_permutation_invariant_witness :
  pick_latest_race_slug scenario_head strptime_imf_fixdate [py "las-vegas"; py "abou-dhabi"] =
  pick_latest_race_slug scenario_head strptime_imf_fixdate [py "abou-dhabi"; py "las-vegas"].
Proof.
  apply pick_latest_permutation_invariant.
  - apply Permutation_swap.
  - intros x y t Hx Hy Htx Hty.
    apply elem_of_cons in Hx as [->|Hx]; [vm_compute in Htx; discriminate|].
    apply elem_of_cons in Hx as [->|Hx]; [|by apply elem_of_nil in Hx].
    apply elem_of_cons in Hy as [->|Hy]; [vm_compute in Hty; discriminate|].
    apply elem_of_cons in Hy as [->|Hy]; [done|by apply elem_of_nil in Hy].
Defined.

(** ** Sheet naming in [main] *)

Lemma digits_of_nat_length fuel n (acc : pystr) :
  (length acc < length (digits_of_nat (S fuel) n acc))%nat.
Proof.
  revert n acc. induction fuel as [|fuel IH]; intros n acc; simpl.
  - destruct (n <? 10); simpl; lia.
  - destruct (n <? 10); [simpl; lia|].
    specialize (IH (n / 10) ((48 + n mod 10) :: acc)). simpl in IH. lia.
Qed.

Lemma py_str_int_nonempty (i : Z) : 0 ≤ i → (1 ≤ length (py_str_int i))%nat.
Proof.
  intros Hi. unfold py_str_int. destruct (Z.ltb_spec i 0); [lia|].
  pose proof (digits_of_nat_length (Z.to_nat i) i []) as Hl. change (length (@nil Z)) with 0%nat in Hl. lia.
Qed.

Lemma py_str_int_2digits (n : Z) :
  1 ≤ n ≤ 99 →
  py_str_int n = if n <? 10 then [48 + n mod 10] else [48 + n / 10 mod 10; 48 + n mod 10].
Proof.
  intros Hn.
  pose proof (Z.div_mod n 10 ltac:(lia)); pose proof (Z.mod_pos_bound n 10 ltac:(lia)).
  unfold py_str_int. destruct (Z.ltb_spec n 0); [lia|].
  destruct (Z.to_nat n) as [|k] eqn:E;
    [apply (f_equal Z.of_nat) in E; rewrite Z2Nat.id in E; simpl in E; lia|].
  simpl. destruct (Z.ltb_spec n 10); [reflexivity|].
  destruct (Z.ltb_spec (n / 10) 10); [|lia]. reflexivity.
Qed.

Lemma py_str_int_2digits_inj (a b : Z) :
  1 ≤ a ≤ 99 → 1 ≤ b ≤ 99 → py_str_int a = py_str_int b → a = b.
Proof.
  intros Ha Hb. rewrite (py_str_int_2digits a Ha), (py_str_int_2digits b Hb).
  pose proof (Z.div_mod a 10 ltac:(lia)); pose proof (Z.mod_pos_bound a 10 ltac:(lia)).
  pose proof (Z.div_mod b 10 ltac:(lia)); pose proof (Z.mod_pos_bound b 10 ltac:(lia)).
  destruct (Z.ltb_spec a 10), (Z.ltb_spec b 10); intros Heq; try discriminate Heq.
  - injection Heq as Heq. rewrite !Z.mod_small in Heq by lia. lia.
  - injection Heq as E1 E2. rewrite !(Z.mod_small (_ / 10)) in E1.
    + lia.
    + split; [apply Z.div_pos; lia|apply Z.div_lt_upper_bound; lia].
    + split; [apply Z.div_pos; lia|apply Z.div_lt_upper_bound; lia].
Qed.

(** The page names without [.aspx], as [main] computes them. *)
Lemma PAGES_stems :
  map (λ p, py_replace p (py ".aspx") []) PAGES =
  map py ["engages"; "qualification"; "grille"; "classement"; "en-tete";
          "meilleur-tour"; "tour-par-tour"; "championnat"]%string.
Proof. vm_compute. reflexivity. Qed.

Lemma PAGES_stem_props (p : pystr) :
  p ∈ PAGES →
  (6 ≤ length (py_replace p (py ".aspx") []) ≤ 13)%nat ∧
  Forall (λ c, is_slug_char c = true) (py_replace p (py ".aspx") []).
Proof.
  intros Hp. assert (Hs : py_replace p (py ".aspx") [] ∈
                          map (λ p, py_replace p (py ".aspx") []) PAGES)
    by (apply list_elem_of_In, (in_map (λ p, py_replace p (py ".aspx") [])), list_elem_of_In, Hp).
  rewrite PAGES_stems in Hs. repeat (apply elem_of_cons in Hs as [Hs|Hs]; [rewrite Hs; split; [simpl; lia|repeat constructor]|]).
  by apply elem_of_nil in Hs.
Qed.

Lemma PAGES_stem_inj (p q : pystr) :
  p ∈ PAGES → q ∈ PAGES →
  py_replace p (py ".aspx") [] = py_replace q (py ".aspx") [] → p = q.
Proof.
  intros Hp Hq Heq. unfold PAGES in Hp, Hq.
  rewrite !list_elem_of_In in Hp, Hq. simpl in Hp, Hq.
  destruct Hp as [<-|[<-|[<-|[<-|[<-|[<-|[<-|[<-|[]]]]]]]]];
  destruct Hq as [<-|[<-|[<-|[<-|[<-|[<-|[<-|[<-|[]]]]]]]]];
  vm_compute in Heq; first [reflexivity|discriminate Heq].
Qed.

Lemma sheet_char_fixed (c : Z) : is_slug_char c = true → is_bad_sheet_char c = false.
Proof.
  unfold is_slug_char, is_bad_sheet_char. intros H.
  repeat (apply orb_true_iff in H as [H|H]); try apply andb_true_iff in H as [H1 H2];
  repeat (apply orb_false_iff; split); apply Z.eqb_neq; lia.
Qed.

Lemma app_sep_inv (a b c d : pystr) (sep : Z) :
  sep ∉ a → sep ∉ c → a ++ sep :: b = c ++ sep :: d → a = c ∧ b = d.
Proof.
  revert c. induction a as [|x a IH]; intros [|y c] Ha Hc Heq; simpl in Heq.
  - by injection Heq.
  - injection Heq as -> _. destruct Hc. apply list_elem_of_here.
  - injection Heq as -> _. destruct Ha. apply list_elem_of_here.
  - injection Heq as -> Heq.
    destruct (IH c) as [-> ->]; [set_solver|set_solver|done|done].
Qed.

Lemma sanitize_map_id (l : pystr) :
  Forall (λ c, is_bad_sheet_char c = false) l →
  map (λ c, if is_bad_sheet_char c then 45 else c) l = l.
Proof.
  induction 1 as [|c l Hc _ IH]; [done|]. simpl. by rewrite Hc, IH.
Qed.

Lemma py_str_int_2digits_clean (i : Z) :
  1 ≤ i ≤ 99 → Forall (λ c, is_bad_sheet_char c = false) (py_str_int i) ∧
               (length (py_str_int i) ≤ 2)%nat.
Proof.
  intros Hi. rewrite py_str_int_2digits by done.
  pose proof (Z.mod_pos_bound i 10 ltac:(lia)).
  assert (0 ≤ i / 10 mod 10 < 10) by (apply Z.mod_pos_bound; lia).
  destruct (i <? 10); (split; [|simpl; lia]);
    repeat constructor; apply sheet_char_fixed; unfold is_slug_char;
    apply orb_true_iff; left; apply orb_true_iff; right;
    apply andb_true_iff; split; apply Z.leb_le; lia.
Qed.

(** ** Extras on sheet naming *)

(** [safe_sheet_name] leaves a name of at most 31 characters without a
    forbidden character unchanged. *)
Theorem safe_sheet_name_clean_id (name : pystr) :
  (length name ≤ 31)%nat → Forall (λ c, is_bad_sheet_char c = false) name →
  safe_sheet_name name = name.
Proof.
  intros Hl Hc. unfold safe_sheet_name. rewrite sanitize_map_id by done.
  by apply take_ge.
Qed.

Lemma safe_sheet_name_clean_id_witness :
  safe_sheet_name (py "abou-dhabi_classement_1") = py "abou-dhabi_classement_1".
Proof.
  apply safe_sheet_name_clean_id; [vm_compute; lia|].
  vm_compute. repeat constructor.
Defined.

Lemma table_sheet_name_length_ge9 (slug page : pystr) (i : Z) :
  page ∈ PAGES → 0 ≤ i → (9 ≤ length (table_sheet_name slug page i))%nat.
Proof.
  intros Hp Hi.
  destruct (PAGES_stem_props page Hp) as [[Hs _] _].
  pose proof (py_str_int_nonempty i Hi) as Hn.
  unfold table_sheet_name, safe_sheet_name.
  rewrite length_take, length_map, !length_app.
  change (length (py "_")) with 1%nat. lia.
Qed.

(** No table sheet is ever named [RunLog], so the tables never write over
    the run-metadata sheet: a table sheet name has at least nine
    characters. *)
Theorem table_sheet_name_not_runlog (slug page : pystr) (i : Z) :
  page ∈ PAGES → 1 ≤ i →
  (9 ≤ length (table_sheet_name slug page i))%nat ∧
  table_sheet_name slug page i ≠ py "RunLog".
Proof.
  intros Hp Hi.
  pose proof (table_sheet_name_length_ge9 slug page i Hp ltac:(lia)) as H9.
  split; [done|]. intros Heq. rewrite Heq in H9. simpl in H9. lia.
Qed.

Lemma table_sheet_name_not_runlog_witness :
  (9 ≤ length (table_sheet_name (py "abou-dhabi") (py "grille.aspx") 1))%nat ∧
  table_sheet_name (py "abou-dhabi") (py "grille.aspx") 1 ≠ py "RunLog".
Proof.
  apply table_sheet_name_not_runlog; [|lia].
  unfold PAGES. simpl. do 2 apply list_elem_of_further. apply list_elem_of_here.
Defined.

Lemma table_sheet_name_inj (slug p q : pystr) (i j : Z) :
  (length slug ≤ 14)%nat → p ∈ PAGES → q ∈ PAGES → 1 ≤ i ≤ 99 → 1 ≤ j ≤ 99 →
  table_sheet_name slug p i = table_sheet_name slug q j → p = q ∧ i = j.
Proof.
  intros Hl Hp Hq Hi Hj.
  destruct (PAGES_stem_props p Hp) as [[_ Hsp] Hcp].
  destruct (PAGES_stem_props q Hq) as [[_ Hsq] Hcq].
  destruct (py_str_int_2digits_clean i Hi) as [Hci Hli].
  destruct (py_str_int_2digits_clean j Hj) as [Hcj Hlj].
  assert (Hclean : ∀ stem n, Forall (λ c, is_slug_char c = true) stem →
            Forall (λ c, is_bad_sheet_char c = false) n →
            Forall (λ c, is_bad_sheet_char c = false) (py "_" ++ stem ++ py "_" ++ n)).
  { intros stem n Hs Hn. apply Forall_app; split; [repeat constructor|].
    apply Forall_app; split; [|apply Forall_app; split; [repeat constructor|done]].
    eapply Forall_impl; [exact Hs|]. apply sheet_char_fixed. }
  unfold table_sheet_name, safe_sheet_name.
  rewrite !(map_app _ slug).
  rewrite (sanitize_map_id (py "_" ++ py_replace p (py ".aspx") [] ++ py "_" ++ py_str_int i)),
    (sanitize_map_id (py "_" ++ py_replace q (py ".aspx") [] ++ py "_" ++ py_str_int j)) by auto.
  rewrite !take_ge by (rewrite !length_app, length_map; simpl; lia).
  intros Heq. apply app_inv_head in Heq. simpl in Heq. injection Heq as Heq.
  apply app_sep_inv in Heq as [Hstem Hnum].
  - split; [by apply PAGES_stem_inj|]. by apply py_str_int_2digits_inj.
  - intros Hin. rewrite Forall_forall in Hcp. specialize (Hcp _ Hin). discriminate.
  - intros Hin. rewrite Forall_forall in Hcq. specialize (Hcq _ Hin). discriminate.
Qed.

(** With a slug of at most 14 characters and at most 99 tables per page,
    no truncation happens and different (page, table index) pairs get
    different sheet names. *)
Theorem table_sheet_name_injective (slug p q : pystr) (i j : Z) :
  (length slug ≤ 14)%nat → p ∈ PAGES → q ∈ PAGES → 1 ≤ i ≤ 99 → 1 ≤ j ≤ 99 →
  table_sheet_name slug p i = table_sheet_name slug q j → p = q ∧ i = j.
Proof. apply table_sheet_name_inj. Qed.

Lemma table_sheet_name_injective_witness :
  table_sheet_name (py "abou-dhabi") (py "grille.aspx") 1 =
    table_sheet_name (py "abou-dhabi") (py "grille.aspx") 1 →
  py "grille.aspx" = py "grille.aspx" ∧ 1 = 1.
Proof.
  apply table_sheet_name_injective; [vm_compute; lia| | |lia|lia];
    unfold PAGES; simpl; do 2 apply list_elem_of_further; apply list_elem_of_here.
Defined.

(** A slug of 30 characters or more fills the 31-character sheet name
    on its own: every table sheet of the run gets the same name, so the
    tables are written into one sheet. *)
Theorem table_sheet_name_long_slug_collide (slug p q : pystr) (i j : Z) :
  (30 ≤ length slug)%nat →
  table_sheet_name slug p i = table_sheet_name slug q j.
Proof.
  intros Hl. unfold table_sheet_name, safe_sheet_name.
  rewrite !(map_app _ slug), !take_app, length_map.
  assert (H : (31 - length slug = 0 ∨ 31 - length slug = 1)%nat) by lia.
  destruct H as [-> | ->]; reflexivity.
Qed.

Lemma table_sheet_name_long_slug_collide_witness :
  table_sheet_name (py "a-very-long-race-slug-for-testing") (py "grille.aspx") 1 =
  table_sheet_name (py "a-very-long-race-slug-for-testing") (py "championnat.aspx") 7.
Proof. apply table_sheet_name_long_slug_collide. vm_compute. lia. Defined.

(** ** Extras on the fetch and on [main] *)

(** [get_race_slugs_for_year] returns exactly when the GET of the anchor
    page answers with a status outside [400, 600); it then returns the
    slugs of the page's links. A transport error or an error status
    always raises. *)
Theorem get_race_slugs_for_year_io_returns (get : pystr → get_response)
    (year : Z) (slugs : list pystr) :
  get_race_slugs_for_year_io get year = Returns slugs ↔
  ∃ status hrefs, get (anchor_url year) = GetResponse status hrefs ∧
    ¬ (400 ≤ status < 600) ∧ slugs = get_race_slugs_for_year year hrefs.
Proof.
  unfold get_race_slugs_for_year_io, raise_for_status.
  destruct (get (anchor_url year)) as [|status hrefs]; split.
  - done.
  - by intros (? & ? & [=] & _).
  - destruct ((400 <=? status) && (status <? 600)) eqn:E; [done|].
    intros [= <-]. exists status, hrefs. split; [done|]. split; [|done].
    intros [H1 H2]. apply andb_false_iff in E as [E|E].
    + rewrite Z.leb_gt in E. lia.
    + rewrite Z.ltb_ge in E. lia.
  - intros (s & h & [= -> ->] & Hs & ->).
    destruct ((400 <=? s) && (s <? 600)) eqn:E; [|done].
    exfalso. apply Hs. apply andb_true_iff in E as [E1 E2].
    rewrite Z.leb_le in E1. rewrite Z.ltb_lt in E2. lia.
Qed.

Lemma imap_fst_seq {A B D : Type} (g : nat → B) (n : nat) (l : list A) :
  ∀ f : nat → A → B * D, (∀ k x, fst (f k x) = g (n + k)%nat) →
  map fst (imap f l) = map g (seq n (length l)).
Proof.
  revert n. induction l as [|x l IH]; intros n f Hf; simpl; [done|].
  rewrite Hf, Nat.add_0_r. f_equal. apply IH. intros k y.
  change ((f ∘ S) k y) with (f (S k) y). rewrite Hf. f_equal. lia.
Qed.

Lemma table_sheets_names {O C : Type} (latest page : pystr) (dfs : list (DataFrame O C)) :
  map fst (table_sheets latest page dfs) =
  map (λ k, table_sheet_name latest page (Z.of_nat k + 1)) (seq 0 (length dfs)).
Proof. unfold table_sheets. by apply imap_fst_seq. Qed.

Lemma table_sheets_name_mem {O C : Type} (latest page : pystr)
    (dfs : list (DataFrame O C)) x :
  x ∈ map fst (table_sheets latest page dfs) →
  ∃ k, (k < length dfs)%nat ∧ x = table_sheet_name latest page (Z.of_nat k + 1).
Proof.
  rewrite table_sheets_names. intros Hx.
  apply (list_elem_of_fmap (λ k, table_sheet_name latest page (Z.of_nat k + 1))) in Hx
    as (k & -> & Hk).
  apply elem_of_seq in Hk. exists k. split; [lia|done].
Qed.

Lemma table_names_nodup {O C : Type} (latest : pystr) (done : list pystr)
    (dfss : list (list (DataFrame O C))) :
  (length latest ≤ 14)%nat → (∀ p, p ∈ done → p ∈ PAGES) → NoDup done →
  Forall2 (λ _ dfs, (length dfs ≤ 99)%nat) done dfss →
  NoDup (map fst (concat (zip_with (table_sheets latest) done dfss))) ∧
  (∀ x, x ∈ map fst (concat (zip_with (table_sheets latest) done dfss)) →
     ∃ p k, p ∈ done ∧ (k < 99)%nat ∧ x = table_sheet_name latest p (Z.of_nat k + 1)).
Proof.
  intros Hl Hsub Hnd HF. induction HF as [|p dfs done dfss Hd HF IH]; simpl.
  { split; [constructor|]. intros x Hx. inversion Hx. }
  apply NoDup_cons in Hnd as [Hp Hnd].
  destruct IH as [IHnd IHmem]; [intros q Hq; apply Hsub; set_solver|done|].
  assert (HpP : p ∈ PAGES) by (apply Hsub; set_solver).
  rewrite map_app. split.
  - apply NoDup_app. split; [|split; [|done]].
    + rewrite table_sheets_names. apply NoDup_fmap_2_strong; [|apply NoDup_seq].
      intros a b Ha Hb Heq. apply elem_of_seq in Ha, Hb.
      apply table_sheet_name_inj in Heq as [_ Hab]; try done; lia.
    + intros x Hx Hx'. apply table_sheets_name_mem in Hx as (k & Hk & ->).
      apply IHmem in Hx' as (q & k' & Hq & Hk' & Heq).
      apply table_sheet_name_inj in Heq as [-> _]; try done; [|lia|lia].
      apply Hsub. set_solver.
  - intros x Hx. apply elem_of_app in Hx as [Hx|Hx].
    + apply table_sheets_name_mem in Hx as (k & Hk & ->).
      exists p, k. repeat split; [set_solver|lia].
    + apply IHmem in Hx as (q & k & Hq & Hk & ->). exists q, k. repeat split; [set_solver|lia].
Qed.

Section MainProofs.
Context {O C : Type}.
Variable get : pystr → get_response.
Variable head : pystr → head_response.
Variable strptime_lm : pystr → option datetime.
Variable obj_str : O → pystr.
Variable read_html : pystr → py_result (list (DataFrame O C)).
Variable now : datetime.

Local Abbreviation run := (main get head strptime_lm obj_str read_html now).
Local Abbreviation scraped latest page :=
  (scrape_tables obj_str read_html (page_url latest page)).
Local Abbreviation runlog latest :=
  (py "RunLog", RunLogSheet (O:=O) (C:=C) (strftime_stamp now) YEAR latest).

Lemma harvest_spec (latest : pystr) (pages : list pystr) w w' err :
  harvest obj_str read_html latest pages w = (w', err) →
  ∃ done dfss,
    Forall2 (λ page dfs, scraped latest page = Returns dfs) done dfss ∧
    w' = w ++ concat (zip_with (table_sheets latest) done dfss) ∧
    ((err = None ∧ done = pages) ∨
     ∃ page rest e, pages = done ++ page :: rest ∧
       scraped latest page = Raises e ∧ err = Some e).
Proof.
  revert w. induction pages as [|page rest IH]; intros w; simpl.
  - intros [= <- <-]. exists [], []. split; [constructor|].
    split; [by rewrite app_nil_r|]. by left.
  - destruct (scraped latest page) as [dfs|e] eqn:Hs.
    + intros H. apply IH in H as (done & dfss & HF & -> & Hcase).
      exists (page :: done), (dfs :: dfss). split; [by constructor|].
      split; [simpl; by rewrite app_assoc|].
      destruct Hcase as [[-> ->]|(pg & r & e & -> & Hpg & ->)]; [by left|].
      right. by exists pg, r, e.
    + intros [= <- <-]. exists [], []. split; [constructor|].
      split; [by rewrite app_nil_r|]. right. by exists page, rest, e.
Qed.

(** [main] writes no workbook exactly when it stops before the workbook
    is opened: the fetch raised, no slug was found, or no slug could be
    picked; it then raises. *)
Theorem main_no_workbook_iff :
  workbook run = None ↔
  (∃ e, get_race_slugs_for_year_io get YEAR = Raises e ∧ result run = Raises e) ∨
  (get_race_slugs_for_year_io get YEAR = Returns [] ∧
   result run = Raises (RuntimeError
     (py "No race slugs found. The season page structure may have changed."))) ∨
  (∃ slugs e, get_race_slugs_for_year_io get YEAR = Returns slugs ∧ slugs ≠ [] ∧
     pick_latest_race_slug head strptime_lm slugs = Raises e ∧ result run = Raises e).
Proof.
  unfold main.
  destruct (get_race_slugs_for_year_io get YEAR) as [slugs|e] eqn:Hg.
  - destruct slugs as [|s0 sl].
    + simpl. split; [intros _; by right; left|done].
    + destruct (pick_latest_race_slug head strptime_lm (s0 :: sl)) as [latest|e] eqn:Hp.
      * destruct (harvest obj_str read_html latest PAGES _) as [w err].
        simpl. split; [done|].
        intros [(e & [=] & _)|[([=] & _)|(slugs & e & [= <-] & _ & Hp' & _)]].
        congruence.
      * simpl. split; [|done]. intros _. right; right. by exists (s0 :: sl), e.
  - simpl. split; [|done]. intros _. left. by exists e.
Qed.

(** When no link of the season page matches the race pattern, [main]
    raises the [RuntimeError] about the page structure, probes no race
    page and writes no workbook. *)
Theorem main_no_matching_href (status : Z) (hrefs : list pystr) :
  get (anchor_url YEAR) = GetResponse status hrefs → ¬ (400 ≤ status < 600) →
  (∀ h, h ∈ hrefs → match_race_href YEAR (py_strip h) = None) →
  run = mk_outcome None (Raises (RuntimeError
          (py "No race slugs found. The season page structure may have changed."))).
Proof.
  intros Hget Hs Hnone.
  assert (Hempty : get_race_slugs_for_year YEAR hrefs = []).
  { destruct (get_race_slugs_for_year YEAR hrefs) as [|x l] eqn:E; [done|].
    exfalso. assert (Hx : x ∈ get_race_slugs_for_year YEAR hrefs)
      by (rewrite E; apply list_elem_of_here).
    apply get_race_slugs_mem in Hx as (h & Hh & Hm). rewrite Hnone in Hm; done. }
  unfold main, get_race_slugs_for_year_io, raise_for_status. rewrite Hget.
  destruct ((400 <=? status) && (status <? 600)) eqn:E.
  - exfalso. apply Hs. apply andb_true_iff in E as [E1 E2].
    rewrite Z.leb_le in E1. rewrite Z.ltb_lt in E2. lia.
  - by rewrite Hempty.
Qed.

(** A run that returns has written the workbook named after the picked
    slug and the clock: the [RunLog] sheet first, then for each of the
    eight pages, in order, one sheet per table of the page, numbered from
    1; the picked slug is one of the discovered slugs. *)
Theorem main_success_writes_all_pages :
  result run = Returns tt →
  ∃ slugs latest dfss,
    get_race_slugs_for_year_io get YEAR = Returns slugs ∧ latest ∈ slugs ∧
    pick_latest_race_slug head strptime_lm slugs = Returns latest ∧
    Forall2 (λ page dfs, scraped latest page = Returns dfs) PAGES dfss ∧
    workbook run = Some (out_file_name latest now,
                         runlog latest :: concat (zip_with (table_sheets latest) PAGES dfss)).
Proof.
  unfold main.
  destruct (get_race_slugs_for_year_io get YEAR) as [slugs|e] eqn:Hg; [|done].
  destruct slugs as [|s0 sl]; [done|].
  destruct (pick_latest_race_slug head strptime_lm (s0 :: sl)) as [latest|e] eqn:Hp; [|done].
  destruct (harvest obj_str read_html latest PAGES _) as [w err] eqn:Hh.
  apply harvest_spec in Hh as (done & dfss & HF & -> & Hcase).
  simpl. intros Hr.
  destruct Hcase as [[-> ->]|(page & rest & e & _ & _ & ->)]; [|done].
  exists (s0 :: sl), latest, dfss. repeat split; try done.
  apply pick_latest_Returns in Hp as (l1 & l2 & t & -> & _).
  apply list_elem_of_In, in_or_app. right. apply in_eq.
Qed.

(** When fetching the tables of a page raises, [main] raises that
    exception, but the [with] block still saves the workbook: it holds
    the [RunLog] sheet and the table sheets of the pages before the
    failing one, and nothing of the pages after it. *)
Theorem main_page_failure_partial_workbook (e : py_exception) (out : pystr)
    (w : list (pystr * sheet O C)) :
  result run = Raises e → workbook run = Some (out, w) →
  ∃ latest done page rest dfss,
    PAGES = done ++ page :: rest ∧
    Forall2 (λ page dfs, scraped latest page = Returns dfs) done dfss ∧
    scraped latest page = Raises e ∧
    out = out_file_name latest now ∧
    w = runlog latest :: concat (zip_with (table_sheets latest) done dfss).
Proof.
  unfold main.
  destruct (get_race_slugs_for_year_io get YEAR) as [slugs|e'] eqn:Hg; [|done].
  destruct slugs as [|s0 sl]; [done|].
  destruct (pick_latest_race_slug head strptime_lm (s0 :: sl)) as [latest|e'] eqn:Hp; [|done].
  destruct (harvest obj_str read_html latest PAGES _) as [w' err] eqn:Hh.
  apply harvest_spec in Hh as (done & dfss & HF & -> & Hcase).
  simpl. intros Hr [= <- <-].
  destruct Hcase as [[-> ->]|(page & rest & e' & Hpg & Hs & ->)]; [done|].
  injection Hr as <-. by exists latest, done, page, rest, dfss.
Qed.
Lemma main_workbook_shape (out : pystr) (w : list (pystr * sheet O C)) :
  workbook run = Some (out, w) →
  ∃ slugs latest done rest dfss,
    get_race_slugs_for_year_io get YEAR = Returns slugs ∧ latest ∈ slugs ∧
    PAGES = done ++ rest ∧
    Forall2 (λ page dfs, scraped latest page = Returns dfs) done dfss ∧
    out = out_file_name latest now ∧
    w = runlog latest :: concat (zip_with (table_sheets latest) done dfss).
Proof.
  unfold main.
  destruct (get_race_slugs_for_year_io get YEAR) as [slugs|e'] eqn:Hg; [|done].
  destruct slugs as [|s0 sl]; [done|].
  destruct (pick_latest_race_slug head strptime_lm (s0 :: sl)) as [latest|e'] eqn:Hp; [|done].
  destruct (harvest obj_str read_html latest PAGES _) as [w' err] eqn:Hh.
  apply harvest_spec in Hh as (done & dfss & HF & -> & Hcase).
  simpl. intros [= <- <-].
  apply pick_latest_Returns in Hp as (l1 & l2 & t & Hsl & _).
  exists (s0 :: sl), latest, done.
  destruct Hcase as [[-> ->]|(page & rest & e & -> & _ & _)].
  - exists [], dfss. rewrite Hsl, app_nil_r. repeat split; try done.
    apply list_elem_of_In, in_or_app. right. apply in_eq.
  - exists (page :: rest), dfss. rewrite Hsl. repeat split; try done.
    apply list_elem_of_In, in_or_app. right. apply in_eq.
Qed.

(** When every discovered slug has at most 14 characters and every page
    has at most 99 tables, the sheet names of the saved workbook are
    pairwise distinct: no [to_excel] call writes into the sheet of an
    earlier one, whether the run returns or a page fails. *)
Theorem main_sheet_names_distinct (out : pystr) (w : list (pystr * sheet O C)) :
  (∀ slugs latest, get_race_slugs_for_year_io get YEAR = Returns slugs →
     latest ∈ slugs → (length latest ≤ 14)%nat) →
  (∀ latest page dfs, scraped latest page = Returns dfs → (length dfs ≤ 99)%nat) →
  workbook run = Some (out, w) → NoDup (map fst w).
Proof.
  intros Hslug Htables Hw.
  apply main_workbook_shape in Hw as (slugs & latest & done & rest & dfss &
                                      Hg & Hl & Hpages & HF & _ & ->).
  assert (HP : NoDup PAGES) by (apply (bool_decide_unpack (NoDup PAGES)); vm_compute; exact I).
  rewrite Hpages in HP. apply NoDup_app in HP as [Hnd _].
  destruct (table_names_nodup latest done dfss) as [Hnodup Hmem].
  - by apply (Hslug slugs).
  - intros p Hp. rewrite Hpages. set_solver.
  - done.
  - eapply Forall2_impl; [exact HF|]. intros page dfs Hs. by apply (Htables latest page).
  - simpl. constructor; [|done]. intros Hr. apply Hmem in Hr as (p & k & Hp & _ & Heq).
    assert (HpP : p ∈ PAGES) by (rewrite Hpages; set_solver).
    pose proof (table_sheet_name_length_ge9 latest p (Z.of_nat k + 1) HpP ltac:(lia)) as H9.
    rewrite <- Heq in H9. simpl in H9. lia.
Qed.

End MainProofs.

Lemma main_no_matching_href_witness :
  main demo_get_no_races scenario_head strptime_imf_fixdate
       (λ _ : unit, py "") demo_read_html demo_now =
  mk_outcome None (Raises (RuntimeError
    (py "No race slugs found. The season page structure may have changed."))).
Proof.
  eapply main_no_matching_href; [reflexivity|lia|].
  intros h Hh. unfold demo_get_no_races in Hh.
  rewrite list_elem_of_In in Hh. simpl in Hh.
  destruct Hh as [<-|[<-|[]]]; vm_compute; reflexivity.
Defined.

Lemma main_success_writes_all_pages_witness :
  result (main demo_get scenario_head strptime_imf_fixdate
               (λ _ : unit, py "") demo_read_html demo_now) = Returns tt ∧
  ∃ slugs latest dfss,
    get_race_slugs_for_year_io demo_get YEAR = Returns slugs ∧ latest ∈ slugs ∧
    pick_latest_race_slug scenario_head strptime_imf_fixdate slugs = Returns latest ∧
    Forall2 (λ page dfs, scrape_tables (λ _ : unit, py "") demo_read_html
                           (page_url latest page) = Returns dfs) PAGES dfss ∧
    workbook (main demo_get scenario_head strptime_imf_fixdate
                   (λ _ : unit, py "") demo_read_html demo_now) =
      Some (out_file_name latest demo_now,
            (py "RunLog", RunLogSheet (strftime_stamp demo_now) YEAR latest)
              :: concat (zip_with (table_sheets latest) PAGES dfss)).
Proof.
  split; [vm_compute; reflexivity|].
  apply main_success_writes_all_pages. vm_compute. reflexivity.
Defined.

Lemma main_page_failure_partial_workbook_witness :
  result (main demo_get scenario_head strptime_imf_fixdate
               (λ _ : unit, py "") demo_read_html_grid_fails demo_now)
    = Raises (LibraryError (py "HTTPError")) ∧
  workbook (main demo_get scenario_head strptime_imf_fixdate
                 (λ _ : unit, py "") demo_read_html_grid_fails demo_now)
    = Some (out_file_name (py "abou-dhabi") demo_now, demo_partial_workbook) ∧
  ∃ latest done page rest dfss,
    PAGES = done ++ page :: rest ∧
    Forall2 (λ page dfs, scrape_tables (λ _ : unit, py "") demo_read_html_grid_fails
                           (page_url latest page) = Returns dfs) done dfss ∧
    scrape_tables (λ _ : unit, py "") demo_read_html_grid_fails (page_url latest page)
      = Raises (LibraryError (py "HTTPError")) ∧
    out_file_name (py "abou-dhabi") demo_now = out_file_name latest demo_now ∧
    demo_partial_workbook =
      (py "RunLog", RunLogSheet (strftime_stamp demo_now) YEAR latest)
        :: concat (zip_with (table_sheets latest) done dfss).
Proof.
  split; [vm_compute; reflexivity|]. split; [vm_compute; reflexivity|].
  apply (main_page_failure_partial_workbook demo_get scenario_head strptime_imf_fixdate
           (λ _ : unit, py "") demo_read_html_grid_fails demo_now);
    vm_compute; reflexivity.
Defined.

Lemma main_sheet_names_distinct_witness :
  workbook (main demo_get scenario_head strptime_imf_fixdate
                 (λ _ : unit, py "") demo_read_html demo_now)
    = Some (out_file_name (py "abou-dhabi") demo_now, demo_full_workbook) ∧
  NoDup (map fst demo_full_workbook).
Proof.
  split; [vm_compute; reflexivity|].
  apply (main_sheet_names_distinct demo_get scenario_head strptime_imf_fixdate
           (λ _ : unit, py "") demo_read_html demo_now
           (out_file_name (py "abou-dhabi") demo_now)).
  - intros slugs latest Hg Hl. vm_compute in Hg. injection Hg as <-.
    rewrite list_elem_of_In in Hl. simpl in Hl.
    destruct Hl as [<-|[<-|[]]]; vm_compute; lia.
  - intros latest page dfs Hs. vm_compute in Hs. injection Hs as <-. simpl. lia.
  - vm_compute. reflexivity.
Defined.
